(** * Amazing chat room (app.py): presence registry, message log, handlers

    A shallow embedding of the Socket.IO handlers of [app.py] and of the
    [/check_username] route, with the properties of the session registry
    ([online_users]), of the bounded message log ([chat_history]) and of the
    connection protocol stated and proved over it.

    Modelling conventions.
    - A Python [str] is the list of its Unicode code points ([N]), so that
      [len], slicing and iteration count characters as Python does.
    - [online_users] is a Python dict: an association list in insertion
      order, updated in place when the key exists and extended at the end
      otherwise ([dict_set]), because [list(online_users.keys())] is sent to
      the clients.
    - A handler is a function from the global state, the request context
      (connection id, clock readings) and the payload to the new state and
      the list of Socket.IO actions it performed ([emit], [join_room],
      [leave_room]), in program order.  Calls to [logger] are not modelled.
    - [with socketio.lock] is a critical section; handlers are atomic steps.
    - [emit] records the emission.  The only exception modelled is one raised
      inside the [try] block that computes, stores and broadcasts the
      assistant's reply ([ai_fault]). *)

From Stdlib Require Import NArith Ascii String.
From stdpp Require Import base list strings.

Local Open Scope N_scope.

(** ** Python strings *)

Definition char := N.
Definition str := list char.

(** Decoding of the UTF-8 bytes of a string literal of this file into code
    points; only used to write the program's literals readably. *)
Fixpoint bytes_of (s : string) : list N :=
  match s with
  | EmptyString => []
  | String a s' => N_of_ascii a :: bytes_of s'
  end.

Fixpoint utf8_decode (bs : list N) : str :=
  match bs with
  | [] => []
  | b0 :: r0 =>
      if b0 <? 128 then b0 :: utf8_decode r0
      else if b0 <? 224 then
        match r0 with
        | b1 :: r1 => ((b0 mod 32) * 64 + b1 mod 64) :: utf8_decode r1
        | _ => []
        end
      else if b0 <? 240 then
        match r0 with
        | b1 :: b2 :: r2 =>
            ((b0 mod 16) * 4096 + (b1 mod 64) * 64 + b2 mod 64) :: utf8_decode r2
        | _ => []
        end
      else
        match r0 with
        | b1 :: b2 :: b3 :: r3 =>
            ((b0 mod 8) * 262144 + (b1 mod 64) * 4096 + (b2 mod 64) * 64 + b3 mod 64)
              :: utf8_decode r3
        | _ => []
        end
  end.

Definition py (s : string) : str := utf8_decode (bytes_of s).

Arguments py : simpl never.

Definition dquote : str := [34].

Definition char_eqb (a b : char) : bool := a =? b.

Definition str_eqb (a b : str) : bool := bool_decide (a = b).

(** [str.isspace] for one character: CPython's [_PyUnicode_IsWhitespace]. *)
Definition isspace (c : char) : bool :=
  ((9 <=? c) && (c <=? 13)) || ((28 <=? c) && (c <=? 32))
  || (c =? 133) || (c =? 160) || (c =? 5760)
  || ((8192 <=? c) && (c <=? 8202)) || (c =? 8232) || (c =? 8233)
  || (c =? 8239) || (c =? 8287) || (c =? 12288).

(** [str.isalnum] for one character is a lookup in the Unicode character
    database of the interpreter; the model is parametric in it. *)
Class UnicodeDB := { isalnum : char -> bool }.

Fixpoint lstrip (s : str) : str :=
  match s with
  | [] => []
  | c :: r => if isspace c then lstrip r else s
  end.

Definition rstrip (s : str) : str := rev (lstrip (rev s)).

(** [s.strip()] *)
Definition strip (s : str) : str := rstrip (lstrip s).

(** [s.startswith(p)] *)
Fixpoint startswith (p s : str) : bool :=
  match p, s with
  | [], _ => true
  | _ :: _, [] => false
  | a :: p', b :: s' => char_eqb a b && startswith p' s'
  end.

(** [p in s] for strings: [p] occurs as a substring of [s]. *)
Fixpoint contains (p s : str) : bool :=
  startswith p s ||
  match s with
  | [] => false
  | _ :: r => contains p r
  end.

(** [c in s] for a single character [c]. *)
Definition char_in (c : char) (s : str) : bool := existsb (char_eqb c) s.

(** [s.split(sep, 1)] for a one-character separator: the list of parts has
    one element when [sep] does not occur, two otherwise. *)
Fixpoint split_once (sep : char) (s : str) : list str :=
  match s with
  | [] => [[]]
  | c :: r =>
      if char_eqb c sep then [[]; r]
      else match split_once sep r with
           | h :: t => (c :: h) :: t
           | [] => [[c]]
           end
  end.

Definition space : char := 32.

(** ** Values received from clients *)

(** A decoded JSON payload.  Lists and dicts are unhashable: using one as a
    dict key raises [TypeError]. *)
#[local] Set Warnings "-register-all".
Inductive pyval :=
  | PyNone
  | PyBool (b : bool)
  | PyInt (z : Z)
  | PyStr (s : str)
  | PyList (l : list pyval)
  | PyDict (d : list (str * pyval)).

(** Truth value of a Python object ([not x] is its negation). *)
Definition truthy (v : pyval) : bool :=
  match v with
  | PyNone => false
  | PyBool b => b
  | PyInt z => negb (Z.eqb z 0)
  | PyStr s => negb (bool_decide (s = []))
  | PyList l => negb (bool_decide (l = []))
  | PyDict d => negb (bool_decide (d = []))
  end.

Definition hashable (v : pyval) : bool :=
  match v with
  | PyList _ | PyDict _ => false
  | _ => true
  end.

(** ** Python dicts with string keys, in insertion order *)

Section Dict.
Context {V : Type}.

(** [d.get(k)] / [d[k]] *)
Fixpoint dict_get (k : str) (d : list (str * V)) : option V :=
  match d with
  | [] => None
  | (k', v) :: r => if str_eqb k' k then Some v else dict_get k r
  end.

(** [k in d] *)
Definition dict_in (k : str) (d : list (str * V)) : bool :=
  match dict_get k d with Some _ => true | None => false end.

(** [d[k] = v]: overwrites the value in place, or appends a new entry. *)
Fixpoint dict_set (k : str) (v : V) (d : list (str * V)) : list (str * V) :=
  match d with
  | [] => [(k, v)]
  | (k', v') :: r =>
      if str_eqb k' k then (k', v) :: r else (k', v') :: dict_set k v r
  end.

(** [del d[k]]; the program only deletes keys it has found in [d]. *)
Fixpoint dict_del (k : str) (d : list (str * V)) : list (str * V) :=
  match d with
  | [] => []
  | (k', v') :: r =>
      if str_eqb k' k then r else (k', v') :: dict_del k r
  end.

(** [list(d.keys())] *)
Definition dict_keys (d : list (str * V)) : list str := map fst d.
End Dict.

(** ** Data model *)

(** A value of [online_users]. *)
Record user_info := { sid : str; joined_at : str }.

(** The ['type'] of a chat message. *)
Inductive msg_type := system | text | movie | ai_chat | ai_reply.

(** ['special_data'] of a user message. *)
Inductive special :=
  | url_data (url : str)
  | question_data (question : str).

(** An entry of [chat_history].  The welcome and error messages have no
    ['username'] and no ['special_data'] key ([None]); a user message always
    has a ['special_data'] key, whose value may be Python's [None]
    ([Some None]). *)
Record chat_msg := {
  msg_type_of : msg_type;
  msg_username : option str;
  msg_message : str;
  msg_timestamp : str;
  msg_special_data : option (option special)
}.

Record state := {
  online_users : list (str * user_info);
  chat_history : list chat_msg
}.

Definition initial_state : state :=
  {| online_users := []; chat_history := [] |}.

(** ** Socket.IO actions *)

Inductive event :=
  | connect_ack | error | kicked | history | user_joined | user_left
  | new_message.

Inductive payload :=
  | message_data (message : str)
  | history_data (messages : list chat_msg)
  | user_joined_data (username : str) (users : list str) (message : chat_msg)
  | user_left_data (username : str) (users : list str)
  | chat_data (m : chat_msg).

(** One call [emit(ev, data, broadcast=.., include_self=.., room=..)]. *)
Record emission := {
  em_event : event;
  em_data : payload;
  em_broadcast : bool;
  em_include_self : bool;
  em_room : option str
}.

Inductive action :=
  | emit (e : emission)
  | join_room (room : str)
  | leave_room (room : str).

(** [emit(ev, data)]: to the connection being served. *)
Definition emit_reply (ev : event) (d : payload) : action :=
  emit {| em_event := ev; em_data := d; em_broadcast := false;
          em_include_self := true; em_room := None |}.

(** [emit(ev, data, room=r)] *)
Definition emit_room (ev : event) (d : payload) (r : str) : action :=
  emit {| em_event := ev; em_data := d; em_broadcast := false;
          em_include_self := true; em_room := Some r |}.

(** [emit(ev, data, broadcast=True)] *)
Definition emit_all (ev : event) (d : payload) : action :=
  emit {| em_event := ev; em_data := d; em_broadcast := true;
          em_include_self := true; em_room := None |}.

(** [emit(ev, data, broadcast=True, include_self=False)] *)
Definition emit_others (ev : event) (d : payload) : action :=
  emit {| em_event := ev; em_data := d; em_broadcast := true;
          em_include_self := false; em_room := None |}.

(** [emit(ev, data, broadcast=True, room=r)] *)
Definition emit_all_room (ev : event) (d : payload) (r : str) : action :=
  emit {| em_event := ev; em_data := d; em_broadcast := true;
          em_include_self := true; em_room := Some r |}.

(** Where Flask-SocketIO delivers an emission made while serving connection
    [sender]: to the named room when [room] is given, to every client when
    [broadcast] is set, to the sender's own room otherwise. *)
Inductive dest := dest_room (r : str) | dest_everyone.

Definition destination (sender : str) (e : emission) : dest :=
  match em_room e with
  | Some r => dest_room r
  | None => if em_broadcast e then dest_everyone else dest_room sender
  end.

(** Exceptions that may be raised inside the [try] block of the assistant
    branch: nowhere, before the reply is stored, or by the room broadcast
    that follows the store. *)
Inductive fault := no_fault | fault_before_append | fault_in_broadcast.

(** The request being served: [request.sid], the readings of
    [datetime.now()] in the two formats used, and the fault oracle. *)
Record request := {
  req_sid : str;
  now_datetime : str;   (* '%Y-%m-%d %H:%M:%S' *)
  now_time : str;       (* '%H:%M:%S', first reading *)
  now_time_ai : str;    (* '%H:%M:%S', reading for the assistant's reply *)
  ai_fault : fault
}.

Definition chat_room : str := py "chat_room".

(** ** The message log *)

(** [chat_history.append(m); if len(chat_history) > 100: chat_history.pop(0)] *)
Definition history_append (m : chat_msg) (h : list chat_msg) : list chat_msg :=
  let h := h ++ [m] in
  if (100 <? length h)%nat then tail h else h.

(** ** Handlers *)

Section Handlers.
Context `{UnicodeDB}.

(** Lines 148-149 (and 63-64 of the [/chat] route):
    [username = username.strip()[:30]] followed by
    [''.join(c for c in username if c.isalnum() or c in ' _\u4e00-\u9fa5')].
    The right operand of [in] is a five-character string: space, underscore,
    U+4E00, hyphen-minus, U+9FA5. *)
Definition keep_char (c : char) : bool :=
  isalnum c || char_in c (py " _一-龥").

Definition clean_username (username : str) : str :=
  let username := take 30 (strip username) in
  List.filter keep_char username.

(** [@socketio.on('connect')] *)
Definition handle_connect (st : state) (rq : request) : state * list action :=
  (st, [emit_reply connect_ack (message_data (py "连接成功"))]).

(** The loop of [handle_disconnect]: the first key, in dict order, whose
    session has the given connection id. *)
Fixpoint find_by_sid (s : str) (d : list (str * user_info)) : option str :=
  match d with
  | [] => None
  | (username, user_info) :: r =>
      if str_eqb (sid user_info) s then Some username else find_by_sid s r
  end.

(** [@socketio.on('disconnect')].  [if username_to_remove:] is false for
    [None] and for the empty string. *)
Definition handle_disconnect (st : state) (rq : request) : state * list action :=
  match find_by_sid (req_sid rq) (online_users st) with
  | Some username_to_remove =>
      if truthy (PyStr username_to_remove) then
        let users := dict_del username_to_remove (online_users st) in
        ({| online_users := users; chat_history := chat_history st |},
         [emit_others user_left
            (user_left_data username_to_remove (dict_keys users))])
      else (st, [])
  | None => (st, [])
  end.

(** [@socketio.on('join')] *)
Definition handle_join (st : state) (rq : request) (data : pyval)
  : state * list action :=
  match data with
  | PyDict d =>
      match dict_get (py "username") d with
      | Some (PyStr username) =>
          if negb (truthy (PyStr username))
             || bool_decide (length (strip username) = 0%nat)
          then (st, [emit_reply error (message_data (py "用户名不能为空"))])
          else
            let username := clean_username username in
            let kick :=
              match dict_get username (online_users st) with
              | Some old =>
                  if negb (str_eqb (sid old) (req_sid rq))
                  then [emit_room kicked
                          (message_data (py "您的账号在其他地方登录")) (sid old)]
                  else []
              | None => []
              end in
            let users :=
              dict_set username
                {| sid := req_sid rq; joined_at := now_datetime rq |}
                (online_users st) in
            let welcome_msg :=
              {| msg_type_of := system;
                 msg_username := None;
                 msg_message := py "欢迎 " ++ username ++ py " 加入聊天室！";
                 msg_timestamp := now_time rq;
                 msg_special_data := None |} in
            let hist := history_append welcome_msg (chat_history st) in
            ({| online_users := users; chat_history := hist |},
             kick ++
             [join_room chat_room;
              emit_reply history (history_data hist);
              emit_all user_joined
                (user_joined_data username (dict_keys users) welcome_msg)])
      | Some _ =>
          (* not username or not isinstance(username, str) *)
          (st, [emit_reply error (message_data (py "用户名不能为空"))])
      | None => (st, [emit_reply error (message_data (py "无效的加入请求"))])
      end
  | _ => (st, [emit_reply error (message_data (py "无效的加入请求"))])
  end.

(** [@socketio.on('leave')].  [username in online_users] raises [TypeError]
    for an unhashable value, which the handler catches and logs; a hashable
    value that is not a string equals no key. *)
Definition handle_leave (st : state) (rq : request) (data : pyval)
  : state * list action :=
  match data with
  | PyDict d =>
      match dict_get (py "username") d with
      | Some (PyStr username) =>
          if dict_in username (online_users st) then
            let users := dict_del username (online_users st) in
            ({| online_users := users; chat_history := chat_history st |},
             [leave_room chat_room;
              emit_others user_left (user_left_data username (dict_keys users))])
          else (st, [])
      | _ => (st, [])
      end
  | _ => (st, [])
  end.

(** [any(keyword in question for keyword in keywords)] *)
Definition any_in (keywords : list str) (question : str) : bool :=
  existsb (fun keyword => contains keyword question) keywords.

(** Lines 276-305: the canned answers of the assistant.  [arg] is
    [parts[1]], [question] is [parts[1].strip()]. *)
Definition ai_answer (arg question : str) : str :=
  if any_in [py "你是谁"; py "你是"; py "介绍"; py "名字"; py "小美"] question then
    py "你好~我是川小农，是这个Amazing聊天室专属的AI助手，小名叫小美！我是四川农业大学的AI小助手，性别是女。我的主要功能是接收用户提问，回答与四川农业大学有关的问题。有任何关于川农大的问题都可以随时问我哦！"
  else if any_in [py "川农大"; py "四川农业大学"; py "学校"; py "在哪里"; py "地址"] question then
    if contains (py "地址") question || contains (py "在哪里") question then
      py "四川农业大学有三个校区：雅安校区位于四川省雅安市雨城区新康路46号；成都校区位于成都市温江区惠民路211号；都江堰校区位于成都市都江堰市建设路288号。"
    else
      py "四川农业大学是国家" ++ dquote ++ py "双一流" ++ dquote
      ++ py "建设高校，也是国家" ++ dquote ++ py "211工程" ++ dquote
      ++ py "重点建设大学。学校有雅安、成都和都江堰三个校区，学科涵盖农学、理学、工学、经济学、管理学等多个领域。"
  else if any_in [py "专业"; py "学科"; py "学院"] question then
    py "四川农业大学设有农学院、动物科技学院、林学院、园艺学院、资源学院等多个学院。优势学科包括作物学、畜牧学、兽医学、林学、农林经济管理等。学校有多个国家级和省级重点学科。"
  else if any_in [py "历史"; py "成立"; py "创建"; py "多少年"] question then
    py "四川农业大学前身是1906年创办的四川通省农业学堂，1935年成为省立四川大学农学院，1956年迁至雅安独立建校为四川农学院，1985年更名为四川农业大学。学校至今已有一百多年的办学历史。"
  else if any_in [py "生活"; py "宿舍"; py "食堂"; py "校园"] question then
    py "四川农业大学各校区环境优美，设施完善。学生宿舍提供良好的住宿条件，配有空调、独立卫生间等设施。学校食堂菜品丰富多样，能够满足不同学生的饮食需求。校园内还有图书馆、体育馆、实验室等各类学习和生活设施。"
  else if any_in [py "招生"; py "分数线"; py "报考"; py "录取"] question then
    py "四川农业大学每年面向全国招生，具体的招生计划、分数线和报考要求可以关注学校官方网站或招生办公室发布的最新信息。学校提供本科、硕士、博士等多层次的教育项目。"
  else
    py "感谢你的提问！关于" ++ dquote ++ arg ++ dquote
    ++ py "，我还在学习中。不过我可以回答四川农业大学的相关问题，比如学校历史、专业设置、校园环境等。你有什么关于川农大的问题想问我吗？".

(** Lines 269-331: the [try] block of the assistant branch and its
    [except] clause.  Returns the log and the actions performed.  When the
    block raises, the handler emits [error_msg] to [request.sid] and goes on;
    [error_msg] is not stored. *)
Definition ai_block (rq : request) (arg timestamp : str) (hist : list chat_msg)
  : list chat_msg * list action :=
  let question := strip arg in
  let ai_response_message := ai_answer arg question in
  let ai_response :=
    {| msg_type_of := ai_reply;
       msg_username := Some (py "川小农");
       msg_message := ai_response_message;
       msg_timestamp := now_time_ai rq;
       msg_special_data := None |} in
  let error_msg :=
    {| msg_type_of := system;
       msg_username := None;
       msg_message := py "AI助手暂时无法响应，请稍后再试";
       msg_timestamp := timestamp;
       msg_special_data := None |} in
  match ai_fault rq with
  | no_fault =>
      (history_append ai_response hist,
       [emit_all_room new_message (chat_data ai_response) chat_room])
  | fault_before_append =>
      (hist, [emit_room new_message (chat_data error_msg) (req_sid rq)])
  | fault_in_broadcast =>
      (history_append ai_response hist,
       [emit_room new_message (chat_data error_msg) (req_sid rq)])
  end.

(** Lines 255-257: [http://] is prepended unless the URL starts with
    [http://] or [https://]. *)
Definition with_scheme (movie_url : str) : str :=
  if negb (startswith (py "http://") movie_url
           || startswith (py "https://") movie_url)
  then py "http://" ++ movie_url
  else movie_url.

(** Lines 238-240 *)
Definition limit_length (message : str) : str :=
  if (500 <? length message)%nat then take 500 message ++ py "..."
  else message.

(** Lines 244-334: classification of an accepted message.  The result is
    [message_type], the possibly replaced [message], [special_data], and the
    log and actions after the assistant block. *)
Definition classify (rq : request) (message timestamp : str)
    (hist : list chat_msg)
  : msg_type * str * option special * list chat_msg * list action :=
  if startswith (py "@电影") message then
    match split_once space message with
    | _ :: arg :: _ =>
        let movie_url := strip arg in
        (movie, message, Some (url_data (with_scheme movie_url)), hist, [])
    | _ => (text, py "请提供电影URL，格式：@电影 <url>", None, hist, [])
    end
  else if startswith (py "@川小农") message then
    match split_once space message with
    | _ :: arg :: _ =>
        let '(hist, acts) := ai_block rq arg timestamp hist in
        (ai_chat, message, Some (question_data arg), hist, acts)
    | _ => (text, py "请提供要问川小农的问题，格式：@川小农 <问题>", None, hist, [])
    end
  else (text, message, None, hist, []).

(** Lines 230-356, once the sender's name has been found in
    [online_users]. *)
Definition accept_message (st : state) (rq : request) (username : str)
    (message : pyval) : state * list action :=
  match message with
  | PyStr message =>
      if negb (truthy (PyStr message)) then (st, [])
      else
        let message := strip message in
        if bool_decide (message = []) then (st, [])
        else
          let message := limit_length message in
          let timestamp := now_time rq in
          let '(message_type, message, special_data, hist, acts) :=
            classify rq message timestamp (chat_history st) in
          let msg_obj :=
            {| msg_type_of := message_type;
               msg_username := Some username;
               msg_message := message;
               msg_timestamp := timestamp;
               msg_special_data := Some special_data |} in
          ({| online_users := online_users st;
              chat_history := history_append msg_obj hist |},
           acts ++ [emit_all_room new_message (chat_data msg_obj) chat_room])
  | _ => (st, [])   (* not message or not isinstance(message, str) *)
  end.

(** [@socketio.on('send_message')].  An unhashable ['username'] makes
    [username not in online_users] raise [TypeError], caught by the outer
    [except], which emits the generic error. *)
Definition handle_message (st : state) (rq : request) (data : pyval)
  : state * list action :=
  match data with
  | PyDict d =>
      match dict_get (py "username") d, dict_get (py "message") d with
      | Some username, Some message =>
          match username with
          | PyStr name =>
              if negb (dict_in name (online_users st)) then
                (st, [emit_reply error (message_data (py "请先加入聊天室"))])
              else accept_message st rq name message
          | PyList _ | PyDict _ =>
              (st, [emit_reply error (message_data (py "发送消息失败"))])
          | _ => (st, [emit_reply error (message_data (py "请先加入聊天室"))])
          end
      | _, _ => (st, [])
      end
  | _ => (st, [])
  end.

(** ** The [/check_username] route *)

(** The request: a JSON POST with its decoded body, or anything else, with
    the ['username'] query argument if present. *)
Inductive http_request :=
  | post_json (data : pyval)
  | query (username : option str).

Inductive http_response :=
  | json_ok (taken available : bool) (message : str)
  | json_error (taken : bool) (error_text : str) (status : nat).

(** [username.strip()] raises [AttributeError] unless [username] is a
    string, and so does [data.get] unless the body is a dict; the route
    answers 500 then. *)
Definition check_username (st : state) (rq : http_request)
  : state * http_response :=
  let failed := (st, json_error false (py "服务器错误") 500%nat) in
  let answer (username : str) :=
    let username := strip username in
    let is_taken := dict_in username (online_users st) in
    (st, json_ok is_taken (negb is_taken)
           (if negb is_taken then py "用户名可用" else py "用户名已被使用")) in
  match rq with
  | post_json (PyDict d) =>
      match dict_get (py "username") d with
      | None => answer []
      | Some (PyStr username) => answer username
      | Some _ => failed
      end
  | post_json _ => failed
  | query None => answer []
  | query (Some username) => answer username
  end.

(** ** Runs of the server *)

Inductive input :=
  | in_connect
  | in_disconnect
  | in_join (data : pyval)
  | in_send_message (data : pyval)
  | in_leave (data : pyval)
  | in_check_username (rq : http_request).

(** One event served from start to end. *)
Definition step (st : state) (ev : request * input) : state :=
  let '(rq, i) := ev in
  match i with
  | in_connect => fst (handle_connect st rq)
  | in_disconnect => fst (handle_disconnect st rq)
  | in_join data => fst (handle_join st rq data)
  | in_send_message data => fst (handle_message st rq data)
  | in_leave data => fst (handle_leave st rq data)
  | in_check_username q => fst (check_username st q)
  end.

Definition run (evs : list (request * input)) : state :=
  fold_left step evs initial_state.

End Handlers.

(** ** A character table and sample requests for concrete runs *)

(** A table that agrees with [str.isalnum] on Basic Latin (digits and
    letters) and on the ideographs U+4E00..U+9FA5, the only characters the
    concrete runs below contain. *)
Definition basic_isalnum (c : char) : bool :=
  ((48 <=? c) && (c <=? 57)) || ((65 <=? c) && (c <=? 90))
  || ((97 <=? c) && (c <=? 122)) || ((19968 <=? c) && (c <=? 40869)).

Definition basic_db : UnicodeDB := {| isalnum := basic_isalnum |}.

(** A request served for connection [s] at clock reading [hms]. *)
Definition at_sid (s hms : string) : request :=
  {| req_sid := py s;
     now_datetime := py "2024-01-01 " ++ py hms;
     now_time := py hms;
     now_time_ai := py hms;
     ai_fault := no_fault |}.

Definition failing (f : fault) (rq : request) : request :=
  {| req_sid := req_sid rq;
     now_datetime := now_datetime rq;
     now_time := now_time rq;
     now_time_ai := now_time_ai rq;
     ai_fault := f |}.

(** The payloads [{'username': name}] and
    [{'username': name, 'message': body}]. *)
Definition named (name : string) : pyval :=
  PyDict [(py "username", PyStr (py name))].

Definition saying (name body : string) : pyval :=
  PyDict [(py "username", PyStr (py name)); (py "message", PyStr (py body))].

(** A connection has joined when some session is bound to it. *)
Definition joined (st : state) (s : str) : bool :=
  match find_by_sid s (online_users st) with
  | Some _ => true
  | None => false
  end.

(** The [kicked] notices among the actions of a handler. *)
Definition is_kicked (a : action) : bool :=
  match a with
  | emit e => match em_event e with kicked => true | _ => false end
  | _ => false
  end.

(** The sessions registered under a name. *)
Definition sessions_named (name : str) (st : state) : list (str * user_info) :=
  List.filter (fun entry => str_eqb (fst entry) name) (online_users st).

(** Every display name in the registry is the result of the cleaning of
    lines 148-149. *)
Definition normalized_keys `{UnicodeDB} (st : state) : Prop :=
  forall name, name ∈ dict_keys (online_users st) ->
    exists raw, name = clean_username raw.

(** The log after appending the events [es], oldest first, to [h]. *)
Definition appended (es : list chat_msg) (h : list chat_msg) : list chat_msg :=
  fold_left (fun h m => history_append m h) es h.

(** The allowed characters in the words of the specification:
    alphanumerics, spaces, underscores and CJK ideographs (the block
    U+4E00..U+9FFF). *)
Definition spec_allowed_char `{UnicodeDB} (c : char) : bool :=
  isalnum c || char_eqb c 32%N || char_eqb c 95%N
  || ((19968 <=? c)%N && (c <=? 40959)%N).

(** ** The [/chat] route *)

(** The answer of the route: a redirect to the login page, or the chat page
    rendered with [username] and [server]. *)
Inductive chat_response :=
  | redirect_index
  | render_chat (username : str) (server : option str).

(** [request.args.get] gives a string or [None].  A failure of the template
    engine, which the route turns into a redirect, is not modelled. *)
Definition chat `{UnicodeDB} (username server : option str) : chat_response :=
  match username with
  | None => redirect_index
  | Some username =>
      if negb (truthy (PyStr username)) || bool_decide (strip username = [])
      then redirect_index
      else render_chat (clean_username username) server
  end.

(** ** Further notions used in the statements *)

(** The sessions bound to a connection. *)
Definition sessions_of (s : str) (st : state) : list (str * user_info) :=
  List.filter (fun entry => str_eqb (sid (snd entry)) s) (online_users st).

(** An action of the message handler: a [new_message] or an [error],
    addressed to the serving connection or to the chat room. *)
Definition is_message_action (sender : str) (a : action) : bool :=
  match a with
  | emit e =>
      match em_event e with
      | new_message | error =>
          match destination sender e with
          | dest_room r => str_eqb r sender || str_eqb r chat_room
          | dest_everyone => false
          end
      | _ => false
      end
  | _ => false
  end.

(** Two connections join one after the other. *)
Definition two_joins : list (request * input) :=
  [(at_sid "s1" "10:00:00", in_join (named "Alice"));
   (at_sid "s2" "10:00:30", in_join (named "Bob"))].

(** One connection joins under two names. *)
Definition double_join : list (request * input) :=
  [(at_sid "s1" "10:00:00", in_join (named "Alice"));
   (at_sid "s1" "10:00:30", in_join (named "Bob"))].

(** ** Facts about strings *)

Example py_ascii : py "a-b" = [97; 45; 98].
Proof. reflexivity. Qed.

Example py_cjk : py "@电影" = [64; 30005; 24433].
Proof. reflexivity. Qed.

Example strip_ex : strip [32; 32; 97; 32; 98; 9; 32]%N = py "a b".
Proof. reflexivity. Qed.

Example split_ex : split_once space (py "@x a b") = [py "@x"; py "a b"].
Proof. reflexivity. Qed.

Example split_none : split_once space (py "@x") = [py "@x"].
Proof. reflexivity. Qed.


Lemma strip_nil : strip [] = [].
Proof. reflexivity. Qed.

Lemma char_eqb_eq (a b : char) : char_eqb a b = true ↔ a = b.
Proof. unfold char_eqb. apply N.eqb_eq. Qed.

(** [split(sep, 1)] cuts at the first separator. *)
Lemma split_once_found (sep : char) (head arg : str) :
  sep ∉ head → split_once sep (head ++ sep :: arg) = [head; arg].
Proof.
  induction head as [|c head IH]; intros Hsep; simpl.
  - assert (char_eqb sep sep = true) as -> by by apply char_eqb_eq.
    reflexivity.
  - apply not_elem_of_cons in Hsep as [Hne Hsep].
    destruct (char_eqb c sep) eqn:E.
    + apply char_eqb_eq in E. congruence.
    + by rewrite IH.
Qed.

Lemma split_once_absent (sep : char) (s : str) :
  sep ∉ s → split_once sep s = [s].
Proof.
  induction s as [|c s IH]; intros Hsep; simpl; [done|].
  apply not_elem_of_cons in Hsep as [Hne Hsep].
  destruct (char_eqb c sep) eqn:E.
  - apply char_eqb_eq in E. congruence.
  - by rewrite IH.
Qed.

(** The two command prefixes exclude each other. *)
Lemma assistant_prefix_not_movie (message : str) :
  startswith (py "@川小农") message = true →
  startswith (py "@电影") message = false.
Proof.
  change (py "@川小农") with [64; 24029; 23567; 20892].
  change (py "@电影") with [64; 30005; 24433].
  destruct message as [|a [|b message]]; cbn [startswith]; try done.
  - by rewrite andb_false_r.
  - intros Hp.
    apply andb_true_iff in Hp as [_ Hp].
    apply andb_true_iff in Hp as [Hb _].
    apply char_eqb_eq in Hb. subst b.
    by rewrite andb_false_r.
Qed.

(** ** Facts about dicts *)

Section DictFacts.
Context {V : Type}.
Implicit Types (d : list (str * V)) (k : str) (v : V).

Lemma dict_in_keys k d : dict_in k d = true ↔ k ∈ dict_keys d.
Proof.
  unfold dict_in, dict_keys.
  induction d as [|[k' v'] d IH]; simpl.
  - split; [done | by intros ?%elem_of_nil].
  - unfold str_eqb. case_bool_decide as E.
    + subst. split; [intros _; apply list_elem_of_here | done].
    + rewrite IH. split; [apply list_elem_of_further|].
      intros [?|?]%elem_of_cons; [congruence | done].
Qed.

Lemma dict_in_false_keys k d : dict_in k d = false ↔ k ∉ dict_keys d.
Proof.
  rewrite <- dict_in_keys. by destruct (dict_in k d).
Qed.

Lemma dict_get_set_eq k v d : dict_get k (dict_set k v d) = Some v.
Proof.
  induction d as [|[k' v'] d IH]; simpl; unfold str_eqb.
  - by rewrite bool_decide_eq_true_2.
  - case_bool_decide as E; simpl; unfold str_eqb.
    + by rewrite bool_decide_eq_true_2.
    + by rewrite bool_decide_eq_false_2.
Qed.

Lemma dict_keys_set_in k v d :
  dict_in k d = true → dict_keys (dict_set k v d) = dict_keys d.
Proof.
  unfold dict_in, dict_keys.
  induction d as [|[k' v'] d IH]; simpl; [done|].
  unfold str_eqb. case_bool_decide as E; simpl; [done|].
  intros Hin. by rewrite IH.
Qed.

Lemma dict_keys_set_new k v d :
  dict_in k d = false → dict_keys (dict_set k v d) = dict_keys d ++ [k].
Proof.
  unfold dict_in, dict_keys.
  induction d as [|[k' v'] d IH]; simpl; [done|].
  unfold str_eqb. case_bool_decide as E; simpl; [done|].
  intros Hin. by rewrite IH.
Qed.

Lemma dict_keys_set_inv k v d x :
  x ∈ dict_keys (dict_set k v d) → x = k ∨ x ∈ dict_keys d.
Proof.
  destruct (dict_in k d) eqn:E.
  - rewrite dict_keys_set_in by done. by right.
  - rewrite dict_keys_set_new by done.
    intros [?|Hx%list_elem_of_singleton]%elem_of_app; [by right | by left].
Qed.

Lemma NoDup_dict_set k v d :
  NoDup (dict_keys d) → NoDup (dict_keys (dict_set k v d)).
Proof.
  intros Hnd. destruct (dict_in k d) eqn:E.
  - by rewrite dict_keys_set_in.
  - rewrite dict_keys_set_new by done.
    apply NoDup_app. split_and!; [done | | apply NoDup_singleton].
    intros x Hx ->%list_elem_of_singleton.
    by apply dict_in_false_keys in E.
Qed.

Lemma dict_keys_del_subset k d x :
  x ∈ dict_keys (dict_del k d) → x ∈ dict_keys d.
Proof.
  unfold dict_keys.
  induction d as [|[k' v'] d IH]; simpl; [done|].
  unfold str_eqb. case_bool_decide as E; simpl.
  - apply list_elem_of_further.
  - intros [->|?]%elem_of_cons; [apply list_elem_of_here|].
    apply list_elem_of_further. by apply IH.
Qed.

Lemma NoDup_dict_del k d :
  NoDup (dict_keys d) → NoDup (dict_keys (dict_del k d)).
Proof.
  induction d as [|[k' v'] d IH]; simpl; [done|].
  intros [Hk Hnd]%NoDup_cons.
  unfold str_eqb. case_bool_decide as E; simpl; [done|].
  apply NoDup_cons. split; [|by apply IH].
  intros Hx. by apply dict_keys_del_subset in Hx.
Qed.

(** With unique keys, a deleted key is gone. *)
Lemma dict_in_del k d :
  NoDup (dict_keys d) → dict_in k (dict_del k d) = false.
Proof.
  intros Hnd. apply dict_in_false_keys.
  induction d as [|[k' v'] d IH]; simpl; [by intros ?%elem_of_nil|].
  apply NoDup_cons in Hnd as [Hk Hnd].
  unfold str_eqb. case_bool_decide as E; simpl.
  - by subst.
  - intros [?|?]%elem_of_cons; [congruence | by apply IH].
Qed.

Lemma filter_key_absent k d :
  k ∉ dict_keys d → List.filter (fun entry => str_eqb (fst entry) k) d = [].
Proof.
  induction d as [|[k' v'] d IH]; simpl; [done|].
  intros [Hne Hk]%not_elem_of_cons.
  unfold str_eqb. rewrite bool_decide_eq_false_2 by congruence.
  by apply IH.
Qed.

(** Entries under one key, counted: at most one when the keys are unique. *)
Lemma filter_key_unique k d :
  NoDup (dict_keys d) →
  (length (List.filter (fun entry => str_eqb (fst entry) k) d) ≤ 1)%nat.
Proof.
  induction d as [|[k' v'] d IH]; simpl; [lia|].
  intros [Hk Hnd]%NoDup_cons.
  destruct (str_eqb k' k) eqn:E; simpl; [|by apply IH].
  apply bool_decide_eq_true in E. subst k'.
  rewrite filter_key_absent by done. simpl. lia.
Qed.

End DictFacts.

Local Close Scope N_scope.

(** ** The message log: at most the 100 most recent events *)

Lemma history_append_length (m : chat_msg) (h : list chat_msg) :
  length h ≤ 100 → length (history_append m h) ≤ 100.
Proof.
  intros Hh. unfold history_append.
  destruct (Nat.ltb_spec 100 (length (h ++ [m]))) as [Hlt|Hle]; [|done].
  rewrite length_app in Hlt. simpl in Hlt.
  destruct h as [|x h]; simpl in *; [lia|].
  rewrite length_app. simpl. lia.
Qed.

Lemma appended_length (es h : list chat_msg) :
  length h ≤ 100 → length (appended es h) ≤ 100.
Proof.
  revert h. induction es as [|m es IH]; intros h Hh; simpl; [done|].
  apply IH. by apply history_append_length.
Qed.

Lemma appended_snoc (es : list chat_msg) (m : chat_msg) (h : list chat_msg) :
  appended (es ++ [m]) h = history_append m (appended es h).
Proof. unfold appended. by rewrite fold_left_app. Qed.

Lemma tail_drop {A} (l : list A) (n : nat) : tail (drop n l) = drop (S n) l.
Proof.
  revert l. induction n as [|n IH]; intros [|x l]; simpl; done.
Qed.

(** From the empty log, the appends keep the last 100 events, in order. *)
Lemma appended_recent (es : list chat_msg) :
  appended es [] = drop (length es - 100) es.
Proof.
  induction es as [|m es IH] using rev_ind; [done|].
  rewrite appended_snoc, IH. unfold history_append.
  rewrite !length_app, length_drop. simpl.
  destruct (Nat.ltb_spec 100 (length es - (length es - 100) + 1)) as [Hlt|Hle].
  - replace (length es + 1 - 100) with (S (length es - 100)) by lia.
    rewrite <- tail_drop. f_equal.
    by rewrite drop_app_le by lia.
  - replace (length es + 1 - 100) with 0 by lia.
    replace (length es - 100) with 0 by lia.
    by rewrite !drop_0.
Qed.

(** ** What one handler call does to the registry and to the log *)

Section Steps.
Context `{UnicodeDB}.
Implicit Types (st : state) (rq : request) (data : pyval).

(** A join whose name is not blank takes the main path of [handle_join]. *)
Lemma handle_join_accepted st rq d raw :
  dict_get (py "username") d = Some (PyStr raw) →
  strip raw ≠ [] →
  handle_join st rq (PyDict d) =
    let username := clean_username raw in
    let users :=
      dict_set username {| sid := req_sid rq; joined_at := now_datetime rq |}
        (online_users st) in
    let welcome_msg :=
      {| msg_type_of := system; msg_username := None;
         msg_message := py "欢迎 " ++ username ++ py " 加入聊天室！";
         msg_timestamp := now_time rq; msg_special_data := None |} in
    let hist := history_append welcome_msg (chat_history st) in
    ({| online_users := users; chat_history := hist |},
     match dict_get username (online_users st) with
     | Some old =>
         if negb (str_eqb (sid old) (req_sid rq))
         then [emit_room kicked
                 (message_data (py "您的账号在其他地方登录")) (sid old)]
         else []
     | None => []
     end ++
     [join_room chat_room;
      emit_reply history (history_data hist);
      emit_all user_joined
        (user_joined_data username (dict_keys users) welcome_msg)]).
Proof.
  intros Hd Hraw. unfold handle_join. rewrite Hd.
  assert (raw ≠ []) as Hne by (intros ->; by apply Hraw).
  simpl truthy.
  rewrite (bool_decide_eq_false_2 (raw = [])) by done.
  rewrite (bool_decide_eq_false_2 (length (strip raw) = 0)); [done|].
  by intros ?%length_zero_iff_nil.
Qed.

Lemma handle_message_users st rq data :
  online_users (fst (handle_message st rq data)) = online_users st.
Proof.
  unfold handle_message, accept_message.
  repeat case_match; simpl; done.
Qed.

Lemma step_NoDup st ev :
  NoDup (dict_keys (online_users st)) →
  NoDup (dict_keys (online_users (step st ev))).
Proof.
  intros Hnd. destruct ev as [rq [| |data|data|data|q]]; simpl.
  - done.
  - unfold handle_disconnect.
    repeat case_match; simpl; try done; by apply NoDup_dict_del.
  - unfold handle_join.
    repeat case_match; simpl; try done; by apply NoDup_dict_set.
  - by rewrite handle_message_users.
  - unfold handle_leave.
    repeat case_match; simpl; try done; by apply NoDup_dict_del.
  - unfold check_username. repeat case_match; simpl; done.
Qed.

Lemma fold_step_NoDup evs st :
  NoDup (dict_keys (online_users st)) →
  NoDup (dict_keys (online_users (fold_left step evs st))).
Proof.
  revert st. induction evs as [|ev evs IH]; intros st Hnd; simpl; [done|].
  apply IH. by apply step_NoDup.
Qed.

(** The keys of [online_users] are unique in every reachable state. *)
Lemma run_NoDup evs : NoDup (dict_keys (online_users (run evs))).
Proof. apply fold_step_NoDup. simpl. apply NoDup_nil_2. Qed.

Lemma step_normalized st ev : normalized_keys st → normalized_keys (step st ev).
Proof.
  intros Hst. destruct ev as [rq [| |data|data|data|q]]; simpl.
  - done.
  - unfold handle_disconnect. repeat case_match; simpl; try done.
    intros name Hname. apply Hst. by eapply dict_keys_del_subset.
  - unfold handle_join. repeat case_match; simpl; try done.
    all: intros name [->|Hname]%dict_keys_set_inv; [by eexists | by apply Hst].
  - intros name. rewrite handle_message_users. apply Hst.
  - unfold handle_leave. repeat case_match; simpl; try done.
    intros name Hname. apply Hst. by eapply dict_keys_del_subset.
  - unfold check_username. by repeat case_match.
Qed.

Lemma run_normalized evs : normalized_keys (run evs).
Proof.
  unfold run.
  assert (normalized_keys initial_state) as Hinit
    by (intros name Hname; by apply elem_of_nil in Hname).
  revert Hinit. generalize initial_state.
  induction evs as [|ev evs IH]; intros st Hst; simpl; [done|].
  apply IH. by apply step_normalized.
Qed.

(** A cleaned name has at most 30 characters, each alphanumeric or one of
    the five characters of the literal of line 149. *)
Lemma clean_username_chars raw :
  length (clean_username raw) ≤ 30 ∧
  ∀ c, c ∈ clean_username raw →
       isalnum c = true ∨ c ∈ [32; 95; 19968; 45; 40869]%N.
Proof.
  unfold clean_username. split.
  - etrans; [apply List.filter_length_le|]. rewrite length_take. lia.
  - intros c Hc. apply list_elem_of_In, List.filter_In in Hc as [_ Hc].
    unfold keep_char in Hc. apply orb_true_iff in Hc as [Hc|Hc]; [by left|].
    right. unfold char_in in Hc. apply existsb_exists in Hc as (x & Hx & Hcx).
    apply char_eqb_eq in Hcx. subst x. by apply list_elem_of_In.
Qed.

End Steps.

Section LogSteps.
Context `{UnicodeDB}.
Implicit Types (st : state) (rq : request) (data : pyval).

(** Closes a goal [∃ es, length es ≤ n ∧ h' = appended es h] when [h'] is
    [h] itself or one [history_append] applied to it. *)
Ltac appends_found :=
  first [ exists []; split; [simpl; lia | reflexivity]
        | eexists [_]; split; [simpl; lia | reflexivity] ].

Lemma ai_block_appends rq arg timestamp hist :
  ∃ es, length es ≤ 1 ∧ (ai_block rq arg timestamp hist).1 = appended es hist.
Proof.
  unfold ai_block. destruct (ai_fault rq); simpl; appends_found.
Qed.

Lemma classify_appends rq message timestamp hist :
  ∃ es, length es ≤ 1 ∧
    (classify rq message timestamp hist).1.2 = appended es hist.
Proof.
  unfold classify.
  destruct (ai_block_appends rq
              (default [] (split_once space message !! 1)) timestamp hist)
    as (es & Hlen & Hes).
  repeat case_match; simplify_eq/=; try appends_found.
  exists es. split; [done|].
  match goal with E : ai_block _ _ _ _ = _ |- _ => by rewrite E in Hes end.
Qed.

Lemma handle_message_appends st rq data :
  ∃ es, length es ≤ 2 ∧
    chat_history (handle_message st rq data).1 = appended es (chat_history st).
Proof.
  unfold handle_message, accept_message.
  repeat case_match; simplify_eq/=; try appends_found.
  match goal with E : classify ?r ?m ?t ?h = _ |- _ =>
    destruct (classify_appends r m t h) as (es & Hlen & Hes);
    rewrite E in Hes; simpl in Hes
  end.
  eexists (es ++ [_]). split; [rewrite length_app; simpl; lia|].
  rewrite appended_snoc. by rewrite <- Hes.
Qed.

(** A handler call changes the log only by appending, at most twice. *)
Lemma step_appends st ev :
  ∃ es, length es ≤ 2 ∧ chat_history (step st ev) = appended es (chat_history st).
Proof.
  destruct ev as [rq [| |data|data|data|q]]; simpl.
  - appends_found.
  - unfold handle_disconnect. repeat case_match; simpl; appends_found.
  - unfold handle_join. repeat case_match; simpl; appends_found.
  - apply handle_message_appends.
  - unfold handle_leave. repeat case_match; simpl; appends_found.
  - unfold check_username. repeat case_match; simpl; appends_found.
Qed.

Lemma fold_step_history_bound evs st :
  length (chat_history st) ≤ 100 →
  length (chat_history (fold_left step evs st)) ≤ 100.
Proof.
  revert st. induction evs as [|ev evs IH]; intros st Hst; simpl; [done|].
  apply IH. destruct (step_appends st ev) as (es & _ & ->).
  by apply appended_length.
Qed.

End LogSteps.

(** ** Claims about the session registry *)

Lemma filter_key_set {V} (k : str) (v : V) (d : list (str * V)) :
  NoDup (dict_keys d) →
  List.filter (fun entry => str_eqb (fst entry) k) (dict_set k v d) = [(k, v)].
Proof.
  induction d as [|[k' v'] d IH]; simpl.
  - intros _. unfold str_eqb. by rewrite bool_decide_eq_true_2.
  - intros [Hk Hnd]%NoDup_cons.
    destruct (str_eqb k' k) eqn:E; simpl; rewrite E.
    + apply bool_decide_eq_true in E. subst k'.
      by rewrite filter_key_absent.
    + by apply IH.
Qed.

(** C1 (name uniqueness).  After every sequence of events served from the
    initial state (joins, leaves, disconnects, and also messages, connects
    and availability checks), the registry holds at most one session under
    each display name, and every registered name is a normalized one; and a
    join whose normalized name is already
    registered leaves the list of names as it is and makes the one entry of
    that name carry the connection id of the joining connection. *)
Theorem name_uniqueness `{UnicodeDB} (evs : list (request * input)) :
  let st := run evs in
  (∀ name, length (sessions_named name st) ≤ 1) ∧
  (∀ name, name ∈ dict_keys (online_users st) → ∃ raw, name = clean_username raw) ∧
  (∀ rq d raw,
     dict_get (py "username") d = Some (PyStr raw) →
     strip raw ≠ [] →
     dict_in (clean_username raw) (online_users st) = true →
     let st' := (handle_join st rq (PyDict d)).1 in
     dict_keys (online_users st') = dict_keys (online_users st) ∧
     sessions_named (clean_username raw) st' =
       [(clean_username raw,
         {| sid := req_sid rq; joined_at := now_datetime rq |})]).
Proof.
  intros st. pose proof (run_NoDup evs) as Hnd. fold st in Hnd. split_and!.
  - intros name. unfold sessions_named. by apply filter_key_unique.
  - apply run_normalized.
  - intros rq d raw Hd Hraw Hin st'. subst st'.
    rewrite (handle_join_accepted st rq d raw Hd Hraw). simpl. split.
    + by apply dict_keys_set_in.
    + unfold sessions_named. simpl. by apply filter_key_set.
Qed.

Lemma name_uniqueness_witness :
  let st := @run basic_db [(at_sid "s1" "10:00:00", in_join (named "Alice"))] in
  let st' := (@handle_join basic_db st (at_sid "s2" "10:05:00") (named "Alice")).1 in
  dict_keys (online_users st') = [py "Alice"] ∧
  sessions_named (py "Alice") st' =
    [(py "Alice", {| sid := py "s2"; joined_at := py "2024-01-01 10:05:00" |})].
Proof.
  pose proof (@name_uniqueness basic_db
                [(at_sid "s1" "10:00:00", in_join (named "Alice"))])
    as (_ & _ & Hre).
  apply (Hre (at_sid "s2" "10:05:00") [(py "username", PyStr (py "Alice"))]
           (py "Alice")).
  - reflexivity.
  - vm_compute. discriminate.
  - reflexivity.
Defined.

(** ** Claims about the message log *)

(** C2 (log bound).  Appending any sequence of events to the empty log
    leaves at most 100 entries, which are the last 100 (or all, if fewer) of
    the appended events in their order of insertion, a suffix of that
    sequence; every handler call changes the log only through such appends,
    and the log of every reachable state has at most 100 entries. *)
Theorem log_bound `{UnicodeDB} :
  (∀ es : list chat_msg,
     length (appended es []) ≤ 100 ∧
     appended es [] = drop (length es - 100) es ∧
     appended es [] `suffix_of` es) ∧
  (∀ st ev, ∃ es,
     length es ≤ 2 ∧ chat_history (step st ev) = appended es (chat_history st)) ∧
  (∀ evs, length (chat_history (run evs)) ≤ 100).
Proof.
  split_and!.
  - intros es. split_and!.
    + apply appended_length. simpl. lia.
    + apply appended_recent.
    + rewrite appended_recent. apply suffix_drop.
  - apply step_appends.
  - intros evs. apply fold_step_history_bound. simpl. lia.
Qed.

(** The cap is reached at 100 entries and the 101st append evicts the
    oldest one. *)
Example log_evicts_oldest :
  let note (n : nat) :=
    {| msg_type_of := text; msg_username := Some (py "Bob");
       msg_message := replicate n 97%N; msg_timestamp := py "10:00:00";
       msg_special_data := Some None |} in
  appended (map note (seq 0 100)) [] = map note (seq 0 100) ∧
  appended (map note (seq 0 101)) [] = map note (seq 1 100).
Proof. split; vm_compute; reflexivity. Qed.

(** ** Claims about sending messages *)

Section Messages.
Implicit Types (st : state) (rq : request).

(** An accepted message: the sender's name is registered and the body is a
    string that is not blank. *)
Lemma handle_message_accepted st rq d name raw :
  dict_get (py "username") d = Some (PyStr name) →
  dict_get (py "message") d = Some (PyStr raw) →
  dict_in name (online_users st) = true →
  strip raw ≠ [] →
  handle_message st rq (PyDict d) =
    let '(message_type, message, special_data, hist, acts) :=
      classify rq (limit_length (strip raw)) (now_time rq) (chat_history st) in
    let msg_obj :=
      {| msg_type_of := message_type; msg_username := Some name;
         msg_message := message; msg_timestamp := now_time rq;
         msg_special_data := Some special_data |} in
    ({| online_users := online_users st;
        chat_history := history_append msg_obj hist |},
     acts ++ [emit_all_room new_message (chat_data msg_obj) chat_room]).
Proof.
  intros Hu Hm Hin Hraw. unfold handle_message. rewrite Hu, Hm, Hin. simpl.
  assert (raw ≠ []) as Hne by (intros ->; by apply Hraw).
  rewrite (bool_decide_eq_false_2 (raw = [])) by done. simpl.
  by rewrite (bool_decide_eq_false_2 (strip raw = [])).
Qed.

End Messages.

(** C3, as amended (message authorization).  A [send_message] whose payload
    name is not a registered display name is rejected: the state, and so the
    log, is unchanged, and the only action is one [error] notice, delivered
    to the sending connection alone.  The test is on the name in the
    payload; the connection that sends is not looked at. *)
Theorem unregistered_name_rejected
    (st : state) (rq : request) (d : list (str * pyval)) (name message : pyval) :
  dict_get (py "username") d = Some name →
  dict_get (py "message") d = Some message →
  (∀ s, name = PyStr s → dict_in s (online_users st) = false) →
  ∃ notice,
    handle_message st rq (PyDict d) = (st, [emit notice]) ∧
    em_event notice = error ∧
    em_data notice =
      message_data (if hashable name then py "请先加入聊天室"
                    else py "发送消息失败") ∧
    destination (req_sid rq) notice = dest_room (req_sid rq).
Proof.
  intros Hu Hm Hname. unfold handle_message. rewrite Hu, Hm.
  destruct name as [| | |s| |]; try (eexists; split_and!; reflexivity).
  rewrite (Hname s eq_refl). simpl.
  eexists; split_and!; reflexivity.
Qed.

Lemma unregistered_name_rejected_witness :
  let st := @run basic_db [(at_sid "s1" "10:00:00", in_join (named "Alice"))] in
  ∃ notice,
    handle_message st (at_sid "s2" "10:01:00") (saying "Mallory" "hello")
      = (st, [emit notice]) ∧
    em_event notice = error ∧
    em_data notice = message_data (py "请先加入聊天室") ∧
    destination (py "s2") notice = dest_room (py "s2").
Proof.
  apply (unregistered_name_rejected _ (at_sid "s2" "10:01:00")
           [(py "username", PyStr (py "Mallory"));
            (py "message", PyStr (py "hello"))]
           (PyStr (py "Mallory")) (PyStr (py "hello"))).
  - reflexivity.
  - reflexivity.
  - intros s [= <-]. reflexivity.
Defined.

(** C3 as stated fails: connection [s2] has bound no name, yet its message
    sent under the name that [s1] registered is stored in the log and
    broadcast to the room. *)
Lemma unjoined_connection_can_post :
  let st := @run basic_db [(at_sid "s1" "10:00:00", in_join (named "Alice"))] in
  let rq := at_sid "s2" "10:01:00" in
  let msg_obj :=
    {| msg_type_of := text; msg_username := Some (py "Alice");
       msg_message := py "hello"; msg_timestamp := py "10:01:00";
       msg_special_data := Some None |} in
  joined st (req_sid rq) = false ∧
  handle_message st rq (saying "Alice" "hello") =
    ({| online_users := online_users st;
        chat_history := chat_history st ++ [msg_obj] |},
     [emit_all_room new_message (chat_data msg_obj) chat_room]) ∧
  chat_history (handle_message st rq (saying "Alice" "hello")).1
    ≠ chat_history st ∧
  destination (req_sid rq)
    {| em_event := new_message; em_data := chat_data msg_obj;
       em_broadcast := true; em_include_self := true;
       em_room := Some chat_room |} = dest_room chat_room.
Proof.
  split_and!; try reflexivity.
  vm_compute. discriminate.
Qed.

(** ** Claims about joining *)

(** C4, as amended (reconnection supersession).  When the normalized name of
    a join is already registered, the list of names is unchanged and the
    name is bound to the joining connection.  If the previous binding was to
    another connection, that connection gets exactly one [kicked] notice,
    addressed to it alone.  If it was the same connection, no [kicked]
    notice is sent and the name stays bound to it.  (Such a re-join is not a
    no-op: like every join it refreshes [joined_at], appends a welcome event
    and sends [history] and [user_joined].) *)
Theorem join_supersedes `{UnicodeDB}
    (st : state) (rq : request) (d : list (str * pyval)) (raw : str)
    (old : user_info) :
  dict_get (py "username") d = Some (PyStr raw) →
  strip raw ≠ [] →
  dict_get (clean_username raw) (online_users st) = Some old →
  let name := clean_username raw in
  let st' := (handle_join st rq (PyDict d)).1 in
  let acts := (handle_join st rq (PyDict d)).2 in
  let notice := emit_room kicked (message_data (py "您的账号在其他地方登录")) (sid old) in
  dict_keys (online_users st') = dict_keys (online_users st) ∧
  dict_get name (online_users st') =
    Some {| sid := req_sid rq; joined_at := now_datetime rq |} ∧
  (sid old ≠ req_sid rq →
     List.filter is_kicked acts = [notice] ∧
     ∀ e, notice = emit e → destination (req_sid rq) e = dest_room (sid old)) ∧
  (sid old = req_sid rq → List.filter is_kicked acts = []) ∧
  chat_history st' =
    history_append
      {| msg_type_of := system; msg_username := None;
         msg_message := py "欢迎 " ++ name ++ py " 加入聊天室！";
         msg_timestamp := now_time rq; msg_special_data := None |}
      (chat_history st).
Proof.
  intros Hd Hraw Hold name st' acts notice. subst st' acts.
  rewrite (handle_join_accepted st rq d raw Hd Hraw). simpl.
  fold name in Hold |- *. rewrite Hold. split_and!.
  - apply dict_keys_set_in. unfold dict_in. by rewrite Hold.
  - apply dict_get_set_eq.
  - intros Hne. unfold str_eqb.
    rewrite bool_decide_eq_false_2 by done. simpl. split; [done|].
    by intros e [= <-].
  - intros Heq. unfold str_eqb.
    by rewrite bool_decide_eq_true_2.
  - done.
Qed.

Lemma join_supersedes_witness :
  let st := @run basic_db [(at_sid "s1" "10:00:00", in_join (named "Alice"))] in
  let r := @handle_join basic_db st (at_sid "s2" "10:05:00") (named "Alice") in
  dict_keys (online_users r.1) = [py "Alice"] ∧
  dict_get (py "Alice") (online_users r.1) =
    Some {| sid := py "s2"; joined_at := py "2024-01-01 10:05:00" |} ∧
  List.filter is_kicked r.2 =
    [emit_room kicked (message_data (py "您的账号在其他地方登录")) (py "s1")].
Proof.
  intros st r.
  pose proof (@join_supersedes basic_db st (at_sid "s2" "10:05:00")
                [(py "username", PyStr (py "Alice"))] (py "Alice")
                {| sid := py "s1"; joined_at := py "2024-01-01 10:00:00" |}
                eq_refl) as Hj.
  destruct Hj as (Hkeys & Hget & Hkick & _); [by vm_compute | reflexivity |].
  split_and!; [exact Hkeys | exact Hget |].
  apply Hkick. by vm_compute.
Defined.

(** C4 as stated fails in its last part: a second join of the same name from
    the same connection changes the registry entry and the log and sends
    events; it is not a no-op. *)
Lemma rejoin_same_connection_not_noop :
  let st := @run basic_db [(at_sid "s1" "10:00:00", in_join (named "Alice"))] in
  let r := @handle_join basic_db st (at_sid "s1" "10:05:00") (named "Alice") in
  dict_get (py "Alice") (online_users st) =
    Some {| sid := py "s1"; joined_at := py "2024-01-01 10:00:00" |} ∧
  dict_get (py "Alice") (online_users r.1) =
    Some {| sid := py "s1"; joined_at := py "2024-01-01 10:05:00" |} ∧
  length (chat_history st) = 1 ∧
  length (chat_history r.1) = 2 ∧
  length r.2 = 3 ∧
  r.1 ≠ st.
Proof.
  split_and!; try reflexivity.
  vm_compute. discriminate.
Qed.

(** C5: the code registers a session under the empty name.  A name made of
    punctuation only passes the blank test of line 142, is emptied by the
    filter of line 149, and is stored; no [error] is sent.  The session
    survives the disconnection of its connection, because
    [if username_to_remove:] is false for the empty string. *)
Theorem join_punctuation_registers_empty_name :
  let rq := at_sid "s1" "10:00:00" in
  let r := @handle_join basic_db initial_state rq (named "!!!") in
  @clean_username basic_db (py "!!!") = [] ∧
  online_users r.1 =
    [([], {| sid := py "s1"; joined_at := py "2024-01-01 10:00:00" |})] ∧
  List.filter
    (fun a => match a with
              | emit e => match em_event e with error => true | _ => false end
              | _ => false
              end) r.2 = [] ∧
  handle_disconnect r.1 rq = (r.1, []).
Proof. split_and!; reflexivity. Qed.

(** C7: the code keeps the hyphen.  Joining as [a-b] registers the name
    [a-b], whose middle character is none of the allowed ones. *)
Theorem join_keeps_hyphen :
  let r := @handle_join basic_db initial_state (at_sid "s1" "10:00:00")
             (named "a-b") in
  dict_keys (online_users r.1) = [py "a-b"] ∧
  45%N ∈ py "a-b" ∧
  @spec_allowed_char basic_db 45%N = false.
Proof.
  split_and!; try reflexivity.
  apply list_elem_of_In. vm_compute. tauto.
Qed.

(** The hyphen is kept whatever the character table says about it. *)
Lemma hyphen_kept `{UnicodeDB} : keep_char 45%N = true.
Proof. unfold keep_char. apply orb_true_r. Qed.

Lemma hyphen_survives `{UnicodeDB} : 45%N ∈ clean_username (py "a-b").
Proof.
  unfold clean_username. apply list_elem_of_In, List.filter_In.
  split; [|apply hyphen_kept].
  change (take 30 (strip (py "a-b"))) with [97; 45; 98]%N. simpl. tauto.
Qed.

(** ** Claims about commands in messages *)

Lemma command_not_blank (prefix raw : str) :
  prefix ≠ [] →
  startswith prefix (limit_length (strip raw)) = true → strip raw ≠ [].
Proof.
  intros Hp Hs E. rewrite E in Hs. by destruct prefix.
Qed.

(** C8 (movie command).  For an accepted message that starts with the movie
    prefix: when the trimmed message contains a space, the text after the
    first space, trimmed, is the argument, and the event stored and
    broadcast has type [movie] with the URL equal to the argument if it
    starts with [http://] or [https://] and to [http://] followed by the
    argument otherwise; when it contains no space, the event is a [text]
    event carrying the usage instruction, with no attachment. *)
Theorem movie_command
    (st : state) (rq : request) (d : list (str * pyval)) (name raw : str) :
  dict_get (py "username") d = Some (PyStr name) →
  dict_get (py "message") d = Some (PyStr raw) →
  dict_in name (online_users st) = true →
  let message := limit_length (strip raw) in
  startswith (py "@电影") message = true →
  let posted (msg_obj : chat_msg) :=
    handle_message st rq (PyDict d) =
      ({| online_users := online_users st;
          chat_history := history_append msg_obj (chat_history st) |},
       [emit_all_room new_message (chat_data msg_obj) chat_room]) in
  (∀ head arg,
     message = head ++ space :: arg → space ∉ head →
     let argument := strip arg in
     let url :=
       if startswith (py "http://") argument
          || startswith (py "https://") argument
       then argument else py "http://" ++ argument in
     posted {| msg_type_of := movie; msg_username := Some name;
               msg_message := message; msg_timestamp := now_time rq;
               msg_special_data := Some (Some (url_data url)) |}) ∧
  (space ∉ message →
     posted {| msg_type_of := text; msg_username := Some name;
               msg_message := py "请提供电影URL，格式：@电影 <url>";
               msg_timestamp := now_time rq;
               msg_special_data := Some None |}).
Proof.
  intros Hu Hm Hin message Hp posted. subst posted.
  assert (strip raw ≠ []) as Hraw by by apply (command_not_blank (py "@电影")).
  rewrite (handle_message_accepted st rq d name raw Hu Hm Hin Hraw).
  fold message. unfold classify. rewrite Hp. split.
  - intros head arg Hsplit Hhead. cbv zeta.
    assert (split_once space message = [head; arg]) as ->
      by (rewrite Hsplit; by apply split_once_found).
    unfold with_scheme.
    by destruct (startswith (py "http://") (strip arg)
                 || startswith (py "https://") (strip arg)).
  - intros Hnone. by rewrite (split_once_absent space message Hnone).
Qed.

Lemma movie_command_witness :
  let st :=
    @run basic_db [(at_sid "s1" "10:00:00", in_join (named "Alice"));
                   (at_sid "s2" "10:00:30", in_join (named "Bob"))] in
  let rq := at_sid "s2" "10:01:00" in
  let msg_obj :=
    {| msg_type_of := movie; msg_username := Some (py "Bob");
       msg_message := py "@电影 vid.example/x"; msg_timestamp := py "10:01:00";
       msg_special_data := Some (Some (url_data (py "http://vid.example/x"))) |} in
  handle_message st rq (saying "Bob" "@电影 vid.example/x") =
    ({| online_users := online_users st;
        chat_history := history_append msg_obj (chat_history st) |},
     [emit_all_room new_message (chat_data msg_obj) chat_room]).
Proof.
  intros st rq msg_obj.
  pose proof (movie_command st rq
                [(py "username", PyStr (py "Bob"));
                 (py "message", PyStr (py "@电影 vid.example/x"))]
                (py "Bob") (py "@电影 vid.example/x")
                eq_refl eq_refl eq_refl eq_refl) as [Harg _].
  apply (Harg (py "@电影") (py "vid.example/x")).
  - reflexivity.
  - intros Hin. apply list_elem_of_In in Hin. vm_compute in Hin.
    intuition discriminate.
Defined.

(** C6, as amended (assistant failure).  When the block that answers an
    assistant question raises, one [system] error event is sent to the
    sending connection alone, no assistant reply is broadcast, and the
    question itself is stored and broadcast to the room as usual.  The error
    event is not stored in the log: the log receives the question, preceded
    by the assistant's reply when the failure came after the reply was
    stored. *)
Theorem assistant_failure_notice
    (st : state) (rq : request) (d : list (str * pyval)) (name raw : str)
    (head arg : str) :
  dict_get (py "username") d = Some (PyStr name) →
  dict_get (py "message") d = Some (PyStr raw) →
  dict_in name (online_users st) = true →
  let message := limit_length (strip raw) in
  startswith (py "@川小农") message = true →
  message = head ++ space :: arg → space ∉ head →
  ai_fault rq ≠ no_fault →
  let error_msg :=
    {| msg_type_of := system; msg_username := None;
       msg_message := py "AI助手暂时无法响应，请稍后再试";
       msg_timestamp := now_time rq; msg_special_data := None |} in
  let ai_response :=
    {| msg_type_of := ai_reply; msg_username := Some (py "川小农");
       msg_message := ai_answer arg (strip arg);
       msg_timestamp := now_time_ai rq; msg_special_data := None |} in
  let msg_obj :=
    {| msg_type_of := ai_chat; msg_username := Some name;
       msg_message := message; msg_timestamp := now_time rq;
       msg_special_data := Some (Some (question_data arg)) |} in
  let notice :=
    {| em_event := new_message; em_data := chat_data error_msg;
       em_broadcast := false; em_include_self := true;
       em_room := Some (req_sid rq) |} in
  let r := handle_message st rq (PyDict d) in
  r.2 = [emit notice; emit_all_room new_message (chat_data msg_obj) chat_room] ∧
  destination (req_sid rq) notice = dest_room (req_sid rq) ∧
  online_users r.1 = online_users st ∧
  chat_history r.1 =
    appended
      (match ai_fault rq with
       | fault_in_broadcast => [ai_response; msg_obj]
       | _ => [msg_obj]
       end) (chat_history st).
Proof.
  intros Hu Hm Hin message Hp Hsplit Hhead Hfault.
  assert (strip raw ≠ []) as Hraw by by apply (command_not_blank (py "@川小农")).
  intros error_msg ai_response msg_obj notice r. subst r.
  rewrite (handle_message_accepted st rq d name raw Hu Hm Hin Hraw).
  fold message. unfold classify.
  assert (split_once space message = [head; arg]) as Hparts
    by (rewrite Hsplit; by apply split_once_found).
  rewrite (assistant_prefix_not_movie message Hp), Hp, Hparts.
  unfold ai_block. destruct (ai_fault rq); done.
Qed.

Lemma assistant_failure_notice_witness :
  let st :=
    @run basic_db [(at_sid "s1" "10:00:00", in_join (named "Alice"));
                   (at_sid "s2" "10:00:30", in_join (named "Bob"))] in
  let rq := failing fault_before_append (at_sid "s2" "10:01:00") in
  let error_msg :=
    {| msg_type_of := system; msg_username := None;
       msg_message := py "AI助手暂时无法响应，请稍后再试";
       msg_timestamp := py "10:01:00"; msg_special_data := None |} in
  let msg_obj :=
    {| msg_type_of := ai_chat; msg_username := Some (py "Bob");
       msg_message := py "@川小农 地址"; msg_timestamp := py "10:01:00";
       msg_special_data := Some (Some (question_data (py "地址"))) |} in
  let r := handle_message st rq (saying "Bob" "@川小农 地址") in
  r.2 = [emit_room new_message (chat_data error_msg) (py "s2");
         emit_all_room new_message (chat_data msg_obj) chat_room] ∧
  chat_history r.1 = appended [msg_obj] (chat_history st).
Proof.
  intros st rq error_msg msg_obj r.
  pose proof (assistant_failure_notice st rq
                [(py "username", PyStr (py "Bob"));
                 (py "message", PyStr (py "@川小农 地址"))]
                (py "Bob") (py "@川小农 地址") (py "@川小农") (py "地址")
                eq_refl eq_refl eq_refl eq_refl eq_refl) as Hf.
  destruct Hf as (Hacts & _ & _ & Hlog).
  - intros Hin. apply list_elem_of_In in Hin. vm_compute in Hin.
    intuition discriminate.
  - discriminate.
  - split; [exact Hacts | exact Hlog].
Defined.

(** C6 as stated fails: when the assistant block raises before storing a
    reply, the log grows by the question only; the error event goes to the
    sender and is not in the log. *)
Lemma assistant_error_not_logged :
  let st :=
    @run basic_db [(at_sid "s1" "10:00:00", in_join (named "Alice"));
                   (at_sid "s2" "10:00:30", in_join (named "Bob"))] in
  let rq := failing fault_before_append (at_sid "s2" "10:01:00") in
  let r := handle_message st rq (saying "Bob" "@川小农 地址") in
  map msg_type_of (chat_history st) = [system; system] ∧
  map msg_type_of (chat_history r.1) = [system; system; ai_chat] ∧
  map msg_message (chat_history r.1) =
    [py "欢迎 Alice 加入聊天室！"; py "欢迎 Bob 加入聊天室！"; py "@川小农 地址"] ∧
  existsb (fun m => str_eqb (msg_message m) (py "AI助手暂时无法响应，请稍后再试"))
    (chat_history r.1) = false ∧
  r.2 =
    [emit_room new_message
       (chat_data
          {| msg_type_of := system; msg_username := None;
             msg_message := py "AI助手暂时无法响应，请稍后再试";
             msg_timestamp := py "10:01:00"; msg_special_data := None |})
       (py "s2");
     emit_all_room new_message
       (chat_data
          {| msg_type_of := ai_chat; msg_username := Some (py "Bob");
             msg_message := py "@川小农 地址"; msg_timestamp := py "10:01:00";
             msg_special_data := Some (Some (question_data (py "地址"))) |})
       chat_room].
Proof. split_and!; reflexivity. Qed.

(** ** Claims about the availability check *)

(** C9, as amended (availability check).  For a name given in the query
    string or in a JSON body, [check_username] answers available exactly
    when no session is registered under the name with its leading and
    trailing whitespace removed, taken being the negation; and whatever the
    request, the state (registry and log) is returned unchanged. *)
Theorem check_username_trimmed :
  (∀ (st : state) (name : str),
     let is_taken := dict_in (strip name) (online_users st) in
     check_username st (query (Some name)) =
       (st, json_ok is_taken (negb is_taken)
              (if negb is_taken then py "用户名可用" else py "用户名已被使用")) ∧
     (negb is_taken = true ↔ strip name ∉ dict_keys (online_users st))) ∧
  (∀ (st : state) (d : list (str * pyval)) (name : str),
     dict_get (py "username") d = Some (PyStr name) →
     check_username st (post_json (PyDict d)) =
       check_username st (query (Some name))) ∧
  (∀ (st : state) (rq : http_request), (check_username st rq).1 = st).
Proof.
  split_and!.
  - intros st name is_taken. split; [reflexivity|].
    subst is_taken. rewrite negb_true_iff. apply dict_in_false_keys.
  - intros st d name Hd. unfold check_username. by rewrite Hd.
  - intros st rq. unfold check_username. by repeat case_match.
Qed.

Lemma check_username_trimmed_witness :
  let st := @run basic_db [(at_sid "s1" "10:00:00", in_join (named "Alice"))] in
  check_username st (post_json (named " Alice ")) =
    (st, json_ok true false (py "用户名已被使用")).
Proof.
  intros st.
  destruct check_username_trimmed as (Hq & Hpost & _).
  unfold named. rewrite (Hpost st [(py "username", PyStr (py " Alice "))] (py " Alice ") eq_refl).
  destruct (Hq st (py " Alice ")) as [-> _]. reflexivity.
Defined.

(** C9 as stated fails.  After a join as [!  a] the session is registered
    under the name made of two spaces and [a]; asked about exactly that
    name, the check answers available.  Asked about [ Alice ], a name no
    session holds, it answers taken because [Alice] is registered.  Asked
    about [Alice!], which a join would normalize to the registered [Alice],
    it answers available. *)
Lemma held_name_reported_available :
  let st := @run basic_db [(at_sid "s1" "10:00:00", in_join (named "!  a"))] in
  let st' := @run basic_db [(at_sid "s1" "10:00:00", in_join (named "Alice"))] in
  dict_keys (online_users st) = [py "  a"] ∧
  (check_username st (query (Some (py "  a")))).2 =
    json_ok false true (py "用户名可用") ∧
  dict_keys (online_users st') = [py "Alice"] ∧
  (check_username st' (query (Some (py " Alice ")))).2 =
    json_ok true false (py "用户名已被使用") ∧
  @clean_username basic_db (py "Alice!") = py "Alice" ∧
  (check_username st' (query (Some (py "Alice!")))).2 =
    json_ok false true (py "用户名可用").
Proof. split_and!; reflexivity. Qed.

(** ** Claims about leaving *)

(** C10 (leave is by name).  In every reachable state, a [leave] whose
    payload names a registered session removes that session and broadcasts
    [user_left], with the remaining names, to everyone but the connection
    that sent the event; the connection id of the request plays no part, so
    the result is the same whichever connection sends it. *)
Theorem leave_by_any_connection `{UnicodeDB}
    (evs : list (request * input)) (rq : request) (d : list (str * pyval))
    (name : str) :
  let st := run evs in
  dict_get (py "username") d = Some (PyStr name) →
  dict_in name (online_users st) = true →
  let users := dict_del name (online_users st) in
  let notice :=
    {| em_event := user_left;
       em_data := user_left_data name (dict_keys users);
       em_broadcast := true; em_include_self := false; em_room := None |} in
  handle_leave st rq (PyDict d) =
    ({| online_users := users; chat_history := chat_history st |},
     [leave_room chat_room; emit notice]) ∧
  dict_in name users = false ∧
  destination (req_sid rq) notice = dest_everyone ∧
  (∀ rq', (handle_leave st rq' (PyDict d)).1 = (handle_leave st rq (PyDict d)).1).
Proof.
  intros st Hd Hin users notice.
  assert (∀ r, handle_leave st r (PyDict d) =
               ({| online_users := users; chat_history := chat_history st |},
                [leave_room chat_room; emit notice])) as Hleave.
  { intros r. unfold handle_leave. by rewrite Hd, Hin. }
  split_and!.
  - apply Hleave.
  - apply dict_in_del. apply run_NoDup.
  - reflexivity.
  - intros rq'. by rewrite !Hleave.
Qed.

Lemma leave_by_any_connection_witness :
  let evs := [(at_sid "s1" "10:00:00", in_join (named "Alice"));
              (at_sid "s2" "10:00:30", in_join (named "Bob"))] in
  let st := @run basic_db evs in
  map (fun entry => (entry.1, sid entry.2)) (online_users st) =
    [(py "Alice", py "s1"); (py "Bob", py "s2")] ∧
  (handle_leave st (at_sid "s2" "10:02:00") (named "Alice")).2 =
    [leave_room chat_room;
     emit_others user_left (user_left_data (py "Alice") [py "Bob"])] ∧
  dict_keys (online_users
               (handle_leave st (at_sid "s2" "10:02:00") (named "Alice")).1)
    = [py "Bob"].
Proof.
  intros evs st. split; [reflexivity|].
  destruct (@leave_by_any_connection basic_db evs (at_sid "s2" "10:02:00")
              [(py "username", PyStr (py "Alice"))] (py "Alice")
              eq_refl eq_refl) as (Hleave & _).
  fold st in Hleave. unfold named. rewrite Hleave. split; reflexivity.
Defined.

(** * Further properties of the handlers *)

(** ** Python's string operations *)

Lemma lstrip_split (s : str) :
  ∃ l, s = l ++ lstrip s ∧ Forall (λ c, isspace c = true) l.
Proof.
  induction s as [|c s (l & Hs & Hl)]; simpl.
  - by exists [].
  - destruct (isspace c) eqn:E.
    + exists (c :: l). split; [by rewrite Hs at 1 | by constructor].
    + by exists [].
Qed.

Lemma lstrip_head (s : str) (c : char) (r : str) :
  lstrip s = c :: r → isspace c = false.
Proof.
  induction s as [|x s IH]; simpl; [done|].
  destruct (isspace x) eqn:E; [done|]. by intros [= <- _].
Qed.

Lemma lstrip_fixed (s : str) :
  (∀ c r, s = c :: r → isspace c = false) → lstrip s = s.
Proof.
  destruct s as [|c r]; [done|]. intros Hc. simpl.
  by rewrite (Hc c r eq_refl).
Qed.

Lemma rstrip_split (s : str) :
  ∃ r, s = rstrip s ++ r ∧ Forall (λ c, isspace c = true) r.
Proof.
  unfold rstrip. destruct (lstrip_split (rev s)) as (l & Hs & Hl).
  exists (rev l). split.
  - rewrite <- rev_app_distr, <- Hs. by rewrite rev_involutive.
  - by apply Forall_rev.
Qed.

Lemma last_rev {A} (l : list A) : last (rev l) = head l.
Proof. destruct l as [|x l]; simpl; [done | apply last_snoc]. Qed.

Lemma rstrip_last (s : str) (c : char) :
  last (rstrip s) = Some c → isspace c = false.
Proof.
  unfold rstrip. rewrite last_rev.
  destruct (lstrip (rev s)) as [|x r] eqn:E; [done|].
  intros [= <-]. by eapply lstrip_head.
Qed.

Lemma rstrip_fixed (s : str) :
  (∀ c, last s = Some c → isspace c = false) → rstrip s = s.
Proof.
  intros Hc. unfold rstrip. rewrite lstrip_fixed; [apply rev_involutive|].
  intros c r Hrev. apply Hc. rewrite <- (rev_involutive s), Hrev.
  by rewrite last_rev.
Qed.

(** What is left of [rstrip s] starts as [s] does. *)
Lemma rstrip_head (s : str) (c : char) (r : str) :
  rstrip s = c :: r → ∃ r', s = c :: r'.
Proof.
  destruct (rstrip_split s) as (t & Hs & _). intros E.
  rewrite E in Hs. by eexists.
Qed.

(** X1 ([split(' ', 1)], lines 252 and 265).  The parts are either the whole
    string, when it has no separator, or the text before the first separator
    and the text after it; put back together around the separator they give
    the string again. *)
Theorem split_once_rejoin (sep : char) (s : str) :
  ((sep ∉ s) ∧ split_once sep s = [s]) ∨
  (∃ h t, split_once sep s = [h; t] ∧ s = h ++ sep :: t ∧ sep ∉ h).
Proof.
  induction s as [|c s IH]; simpl.
  - left. split; [by intros ?%elem_of_nil | done].
  - destruct (char_eqb c sep) eqn:E.
    + apply char_eqb_eq in E. subst c. right. exists [], s.
      split_and!; [done | done | by intros ?%elem_of_nil].
    + assert (sep ≠ c) as Hne
        by (intros ->; by rewrite (proj2 (char_eqb_eq c c) eq_refl) in E).
      destruct IH as [[Hs ->]|(h & t & -> & -> & Hh)].
      * left. split; [|done]. by apply not_elem_of_cons.
      * right. exists (c :: h), t.
        split_and!; [done | done | by apply not_elem_of_cons].
Qed.

Lemma strip_split (s : str) :
  ∃ l r, s = l ++ strip s ++ r ∧
         Forall (λ c, isspace c = true) l ∧ Forall (λ c, isspace c = true) r.
Proof.
  destruct (lstrip_split s) as (l & Hl & Hwl).
  destruct (rstrip_split (lstrip s)) as (r & Hr & Hwr).
  exists l, r. split_and!; [|done|done].
  unfold strip. by rewrite <- Hr.
Qed.

Lemma strip_head (s : str) (c : char) :
  head (strip s) = Some c → isspace c = false.
Proof.
  intros Hc. apply head_Some in Hc as [r Hc]. unfold strip in Hc.
  apply rstrip_head in Hc as [r' Hc]. by eapply lstrip_head.
Qed.

Lemma strip_idem (s : str) : strip (strip s) = strip s.
Proof.
  unfold strip at 1. rewrite lstrip_fixed.
  - apply rstrip_fixed. intros c. apply rstrip_last.
  - intros c r Hs. apply (strip_head s). by rewrite Hs.
Qed.

(** X2 ([strip], lines 59, 63, 81, 142, 148, 234, 254, 271).  Trimming removes
    only whitespace, and only at the two ends; the result neither starts nor
    ends with whitespace, and trimming it again changes nothing. *)
Theorem strip_trimmed (s : str) :
  (∃ l r, s = l ++ strip s ++ r ∧
          Forall (λ c, isspace c = true) l ∧ Forall (λ c, isspace c = true) r) ∧
  (∀ c, head (strip s) = Some c → isspace c = false) ∧
  (∀ c, last (strip s) = Some c → isspace c = false) ∧
  strip (strip s) = strip s.
Proof.
  split_and!.
  - apply strip_split.
  - apply strip_head.
  - intros c. apply rstrip_last.
  - apply strip_idem.
Qed.

(** ** Normalization of display names *)

Section Normalization.
Context `{UnicodeDB}.

Lemma clean_username_kept (raw : str) :
  Forall (λ c, keep_char c = true) (clean_username raw).
Proof.
  unfold clean_username. apply Forall_forall. intros c Hc.
  by apply list_elem_of_In, List.filter_In in Hc as [_ Hc].
Qed.

Lemma clean_username_short (raw : str) : length (clean_username raw) ≤ 30.
Proof.
  unfold clean_username.
  etrans; [apply List.filter_length_le|]. rewrite length_take. lia.
Qed.

Lemma filter_all_kept (s : str) :
  Forall (λ c, keep_char c = true) s → List.filter keep_char s = s.
Proof.
  induction 1 as [|c s Hc _ IH]; simpl; [done|]. by rewrite Hc, IH.
Qed.

(** X4 (lines 148-149 applied twice).  Cleaning an already cleaned name only
    trims it: nothing is cut or filtered a second time.  A cleaned name is
    therefore a fixed point exactly when the filter has left no whitespace at
    its ends. *)
Theorem clean_username_again (raw : str) :
  clean_username (clean_username raw) = strip (clean_username raw) ∧
  (clean_username (clean_username raw) = clean_username raw ↔
   strip (clean_username raw) = clean_username raw).
Proof.
  assert (clean_username (clean_username raw) = strip (clean_username raw))
    as Hagain.
  { set (k := clean_username raw).
    destruct (strip_split k) as (l & r & Hk & _).
    pose proof (clean_username_kept raw) as Hkept. fold k in Hkept.
    pose proof (clean_username_short raw) as Hshort. fold k in Hshort.
    rewrite Hk in Hkept, Hshort.
    apply Forall_app in Hkept as [_ Hkept].
    apply Forall_app in Hkept as [Hkept _].
    rewrite !length_app in Hshort.
    unfold clean_username at 1.
    rewrite take_ge by lia. by apply filter_all_kept. }
  split; [done|]. by rewrite Hagain.
Qed.

(** The filter can leave whitespace at the ends, which a second cleaning
    removes. *)
Example clean_username_not_idempotent :
  @clean_username basic_db (py "!  a") = py "  a" ∧
  @clean_username basic_db (py "  a") = py "a".
Proof. split; reflexivity. Qed.

End Normalization.

(** ** More facts about dicts *)

Section DictMore.
Context {V : Type}.
Implicit Types (d : list (str * V)) (k : str) (v : V).

Lemma dict_get_set_ne k k' v d :
  k' ≠ k → dict_get k' (dict_set k v d) = dict_get k' d.
Proof.
  intros Hne. induction d as [|[k0 v0] d IH]; simpl.
  - unfold str_eqb. by rewrite bool_decide_eq_false_2.
  - destruct (str_eqb k0 k) eqn:E; simpl; [|by rewrite IH].
    apply bool_decide_eq_true in E. subst k0.
    unfold str_eqb. by rewrite !bool_decide_eq_false_2.
Qed.

Lemma dict_get_del_ne k k' d :
  k' ≠ k → dict_get k' (dict_del k d) = dict_get k' d.
Proof.
  intros Hne. induction d as [|[k0 v0] d IH]; simpl; [done|].
  destruct (str_eqb k0 k) eqn:E; simpl; [|by rewrite IH].
  apply bool_decide_eq_true in E. subst k0.
  unfold str_eqb. by rewrite bool_decide_eq_false_2.
Qed.

Lemma dict_del_set_fresh k v d :
  dict_in k d = false → dict_del k (dict_set k v d) = d.
Proof.
  unfold dict_in. induction d as [|[k0 v0] d IH]; simpl.
  - intros _. unfold str_eqb. by rewrite bool_decide_eq_true_2.
  - destruct (str_eqb k0 k) eqn:E; [done|]. simpl. rewrite E.
    intros Hd. by rewrite IH.
Qed.

Lemma dict_in_set k v d : dict_in k (dict_set k v d) = true.
Proof. unfold dict_in. by rewrite dict_get_set_eq. Qed.

Lemma dict_get_elem k v d : dict_get k d = Some v → (k, v) ∈ d.
Proof.
  induction d as [|[k0 v0] d IH]; simpl; [done|].
  destruct (str_eqb k0 k) eqn:E.
  - apply bool_decide_eq_true in E. intros [= ->]. subst. apply list_elem_of_here.
  - intros Hd. apply list_elem_of_further. by apply IH.
Qed.

Lemma dict_elem_get k v d :
  NoDup (dict_keys d) → (k, v) ∈ d → dict_get k d = Some v.
Proof.
  induction d as [|[k0 v0] d IH]; simpl; [by intros _ ?%elem_of_nil|].
  intros [Hk Hnd]%NoDup_cons [[= -> ->]|Hin]%elem_of_cons.
  - unfold str_eqb. by rewrite bool_decide_eq_true_2.
  - unfold str_eqb. rewrite bool_decide_eq_false_2; [by apply IH|].
    intros ->. apply Hk. unfold dict_keys.
    apply list_elem_of_fmap. by exists (k, v).
Qed.

End DictMore.

(** ** The [/chat] route and the name it shows *)

(** X5 ([chat], lines 52-69).  The route redirects to the login page exactly
    when the [username] argument is missing or blank.  Otherwise it renders
    the chat page with the cleaned name, of at most 30 characters, which is
    the name under which a join with the same raw name is registered. *)
Theorem chat_route `{UnicodeDB} (username server : option str) :
  (chat username server = redirect_index ↔
   ∀ raw, username = Some raw → strip raw = []) ∧
  (∀ raw, username = Some raw → strip raw ≠ [] →
     chat username server = render_chat (clean_username raw) server ∧
     length (clean_username raw) ≤ 30 ∧
     ∀ st rq,
       dict_in (clean_username raw)
         (online_users
            (handle_join st rq (PyDict [(py "username", PyStr raw)])).1) = true).
Proof.
  split.
  - destruct username as [raw|]; simpl; [|by split].
    destruct (decide (strip raw = [])) as [E|E].
    + rewrite (bool_decide_eq_true_2 _ E), orb_true_r.
      split; [|done]. by intros _ ? [= <-].
    + assert (raw ≠ []) as Hne by (intros ->; by apply E).
      rewrite (bool_decide_eq_false_2 _ E), (bool_decide_eq_false_2 _ Hne).
      simpl. split; [done|]. intros Hb. destruct E. by apply Hb.
  - intros raw -> Hraw.
    assert (raw ≠ []) as Hne by (intros ->; by apply Hraw).
    split_and!; [| apply clean_username_short |].
    { unfold chat. simpl truthy.
      by rewrite (bool_decide_eq_false_2 _ Hraw), (bool_decide_eq_false_2 _ Hne). }
    intros st rq.
    rewrite (handle_join_accepted st rq [(py "username", PyStr raw)] raw
               eq_refl Hraw).
    simpl. apply dict_in_set.
Qed.

Lemma chat_route_witness :
  @chat basic_db (Some (py " Bob! ")) (Some (py "local")) =
    render_chat (py "Bob") (Some (py "local")) ∧
  dict_keys (online_users
               (@handle_join basic_db initial_state (at_sid "s1" "10:00:00")
                  (named " Bob! ")).1) = [py "Bob"].
Proof.
  destruct (@chat_route basic_db (Some (py " Bob! ")) (Some (py "local")))
    as [_ Hrender].
  destruct (Hrender (py " Bob! ") eq_refl) as (Hchat & _ & _).
  - by vm_compute.
  - split; [exact Hchat | reflexivity].
Defined.

(** ** More about joining *)

Lemma history_append_last (m : chat_msg) (h : list chat_msg) :
  last (history_append m h) = Some m.
Proof.
  unfold history_append.
  destruct (Nat.ltb_spec 100 (length (h ++ [m]))) as [Hlt|_];
    [|apply last_snoc].
  destruct h as [|x h]; simpl in *; [lia|]. apply last_snoc.
Qed.

(** X6 ([handle_join], lines 131-145).  A join whose payload is not a dict,
    has no ['username'], or whose username is not a string or is blank, is
    refused: the state is unchanged and the only action is one [error]
    event for the sender, with one of the two texts of lines 135 and 144. *)
Theorem join_refused `{UnicodeDB} (st : state) (rq : request) (data : pyval) :
  (∀ d raw, data = PyDict d →
            dict_get (py "username") d = Some (PyStr raw) → strip raw = []) →
  ∃ text,
    handle_join st rq data = (st, [emit_reply error (message_data text)]) ∧
    (text = py "无效的加入请求" ∨ text = py "用户名不能为空") ∧
    (text = py "无效的加入请求" ↔
     ∀ d, data = PyDict d → dict_get (py "username") d = None).
Proof.
  intros Hbad.
  assert (py "用户名不能为空" ≠ py "无效的加入请求") as Hdiff
    by (vm_compute; discriminate).
  assert (∀ d, (∀ d0, PyDict d = PyDict d0 → dict_get (py "username") d0 = None)
               ↔ dict_get (py "username") d = None) as Hkey.
  { intros d. split; [intros Hn; apply Hn; reflexivity|].
    intros Hn d0 E. injection E as <-. exact Hn. }
  destruct data as [| |z|s|l|d].
  1-5: exists (py "无效的加入请求"); split_and!;
         [reflexivity | left; reflexivity
         | split; [intros _ d0 E; discriminate E | reflexivity]].
  destruct (dict_get (py "username") d) as [v|] eqn:Hd.
  - exists (py "用户名不能为空").
    split_and!; [| right; reflexivity
                 | rewrite Hkey, Hd;
                   split; [intros E; destruct (Hdiff E) | intros E; discriminate E]].
    unfold handle_join. rewrite Hd.
    destruct v as [| |z|raw|l|d']; try reflexivity.
    rewrite (Hbad d raw eq_refl Hd). simpl length.
    rewrite (bool_decide_eq_true_2 (0 = 0) eq_refl), orb_true_r. reflexivity.
  - exists (py "无效的加入请求").
    split_and!; [| left; reflexivity
                 | rewrite Hkey; split; [intros _; exact Hd | reflexivity]].
    unfold handle_join. rewrite Hd. reflexivity.
Qed.

Lemma join_refused_witness :
  ∃ text,
    @handle_join basic_db initial_state (at_sid "s1" "10:00:00") (named "   ") =
      (initial_state, [emit_reply error (message_data text)]) ∧
    (text = py "无效的加入请求" ∨ text = py "用户名不能为空") ∧
    (text = py "无效的加入请求" ↔
     ∀ d, named "   " = PyDict d → dict_get (py "username") d = None).
Proof.
  apply (@join_refused basic_db initial_state (at_sid "s1" "10:00:00")
           (named "   ")).
  intros d raw E Hd. injection E as <-. injection Hd as <-. reflexivity.
Defined.

(** X7 ([handle_join], lines 151-199, new name).  A join under a name that
    is not registered adds that name after all the others, sends no [kicked]
    notice, and its actions are, in order: entering the chat room, the
    history for the sender, and [user_joined] for everyone with the new list
    of names. *)
Theorem join_new_name `{UnicodeDB}
    (st : state) (rq : request) (d : list (str * pyval)) (raw : str) :
  dict_get (py "username") d = Some (PyStr raw) →
  strip raw ≠ [] →
  dict_in (clean_username raw) (online_users st) = false →
  let name := clean_username raw in
  let r := handle_join st rq (PyDict d) in
  let welcome_msg :=
    {| msg_type_of := system; msg_username := None;
       msg_message := py "欢迎 " ++ name ++ py " 加入聊天室！";
       msg_timestamp := now_time rq; msg_special_data := None |} in
  online_users r.1 =
    online_users st ++
    [(name, {| sid := req_sid rq; joined_at := now_datetime rq |})] ∧
  r.2 = [join_room chat_room;
         emit_reply history (history_data (chat_history r.1));
         emit_all user_joined
           (user_joined_data name (dict_keys (online_users st) ++ [name])
              welcome_msg)].
Proof.
  intros Hd Hraw Hnew name r welcome_msg. subst r.
  rewrite (handle_join_accepted st rq d raw Hd Hraw). simpl. fold name.
  assert (∀ (v : user_info) (l : list (str * user_info)),
            dict_in name l = false → dict_set name v l = l ++ [(name, v)])
    as Hset.
  { intros v l. unfold dict_in.
    induction l as [|[k0 v0] l IH]; simpl; [done|].
    destruct (str_eqb k0 name); [done|]. intros Hl. by rewrite IH. }
  rewrite (Hset _ _ Hnew). split; [done|].
  unfold dict_in in Hnew. fold name in Hnew.
  destruct (dict_get name (online_users st)); [done|]. simpl.
  unfold dict_keys. by rewrite map_app.
Qed.

Lemma join_new_name_witness :
  let r := @handle_join basic_db (@run basic_db two_joins)
             (at_sid "s3" "10:01:00") (named "Carol") in
  map fst (online_users r.1) = [py "Alice"; py "Bob"; py "Carol"] ∧
  length r.2 = 3.
Proof.
  destruct (@join_new_name basic_db (@run basic_db two_joins)
              (at_sid "s3" "10:01:00") [(py "username", PyStr (py "Carol"))]
              (py "Carol") eq_refl) as [Husers Hacts].
  - vm_compute. discriminate.
  - reflexivity.
  - intros r. subst r. unfold named. rewrite Husers, Hacts.
    split; reflexivity.
Defined.

(** X8 ([handle_join], lines 162-166).  A join touches one entry of the
    registry only: every other display name keeps its session as it was. *)
Theorem join_keeps_other_sessions `{UnicodeDB}
    (st : state) (rq : request) (data : pyval) (other : str) :
  (∀ d raw, data = PyDict d →
            dict_get (py "username") d = Some (PyStr raw) →
            other ≠ clean_username raw) →
  dict_get other (online_users (handle_join st rq data).1) =
    dict_get other (online_users st).
Proof.
  intros Hother. unfold handle_join.
  repeat case_match; simpl; try done.
  all: apply dict_get_set_ne; by eapply Hother.
Qed.

Lemma join_keeps_other_sessions_witness :
  dict_get (py "Alice")
    (online_users
       (@handle_join basic_db (@run basic_db two_joins)
          (at_sid "s3" "10:01:00") (named "Bob")).1) =
  Some {| sid := py "s1"; joined_at := py "2024-01-01 10:00:00" |}.
Proof.
  rewrite (@join_keeps_other_sessions basic_db).
  - reflexivity.
  - intros d raw E Hd. injection E as <-. injection Hd as <-.
    vm_compute. discriminate.
Defined.

(** X9 ([handle_join], lines 173-199).  After an accepted join the log ends
    with the welcome event of that join; the [history] event carries this
    new log and goes to the joining connection alone, and [user_joined]
    carries the same welcome event and the names now registered and goes to
    every client. *)
Theorem join_replays_log `{UnicodeDB}
    (st : state) (rq : request) (d : list (str * pyval)) (raw : str) :
  dict_get (py "username") d = Some (PyStr raw) →
  strip raw ≠ [] →
  let r := handle_join st rq (PyDict d) in
  ∃ welcome_msg replay roster,
    last (chat_history r.1) = Some welcome_msg ∧
    msg_type_of welcome_msg = system ∧
    msg_message welcome_msg =
      py "欢迎 " ++ clean_username raw ++ py " 加入聊天室！" ∧
    drop (length r.2 - 2) r.2 = [emit replay; emit roster] ∧
    em_event replay = history ∧
    em_data replay = history_data (chat_history r.1) ∧
    destination (req_sid rq) replay = dest_room (req_sid rq) ∧
    em_event roster = user_joined ∧
    em_data roster =
      user_joined_data (clean_username raw) (dict_keys (online_users r.1))
        welcome_msg ∧
    destination (req_sid rq) roster = dest_everyone.
Proof.
  intros Hd Hraw r. subst r.
  rewrite (handle_join_accepted st rq d raw Hd Hraw). cbv zeta.
  set (welcome_msg :=
         {| msg_type_of := system; msg_username := None;
            msg_message := py "欢迎 " ++ clean_username raw ++ py " 加入聊天室！";
            msg_timestamp := now_time rq; msg_special_data := None |}).
  set (hist := history_append welcome_msg (chat_history st)).
  set (users := dict_set (clean_username raw) _ (online_users st)).
  exists welcome_msg,
    {| em_event := history; em_data := history_data hist;
       em_broadcast := false; em_include_self := true; em_room := None |},
    {| em_event := user_joined;
       em_data := user_joined_data (clean_username raw) (dict_keys users)
                    welcome_msg;
       em_broadcast := true; em_include_self := true; em_room := None |}.
  split_and!; try reflexivity.
  - apply history_append_last.
  - cbn [snd].
    destruct (dict_get (clean_username raw) (online_users st)) as [old|];
      [destruct (negb (str_eqb (sid old) (req_sid rq)))|]; reflexivity.
Qed.

Lemma join_replays_log_witness :
  let r := @handle_join basic_db (@run basic_db two_joins)
             (at_sid "s3" "10:01:00") (named "Carol") in
  map msg_message (chat_history r.1) =
    [py "欢迎 Alice 加入聊天室！"; py "欢迎 Bob 加入聊天室！";
     py "欢迎 Carol 加入聊天室！"].
Proof.
  destruct (@join_replays_log basic_db (@run basic_db two_joins)
              (at_sid "s3" "10:01:00") [(py "username", PyStr (py "Carol"))]
              (py "Carol") eq_refl) as (w & _ & _ & Hlast & _).
  - vm_compute. discriminate.
  - vm_compute. reflexivity.
Defined.

(** ** Leaving and disconnecting *)

Lemma find_by_sid_elem (s : str) (d : list (str * user_info)) (k : str) :
  find_by_sid s d = Some k → ∃ info, (k, info) ∈ d ∧ sid info = s.
Proof.
  induction d as [|[k0 v0] d IH]; simpl; [done|].
  destruct (str_eqb (sid v0) s) eqn:E.
  - apply bool_decide_eq_true in E. intros [= <-].
    exists v0. split; [apply list_elem_of_here | done].
  - intros (info & Hin & Hs)%IH. exists info.
    split; [by apply list_elem_of_further | done].
Qed.

Lemma find_by_sid_found (s : str) (d : list (str * user_info))
    (k : str) (info : user_info) :
  (k, info) ∈ d → sid info = s → is_Some (find_by_sid s d).
Proof.
  induction d as [|[k0 v0] d IH]; simpl; [by intros ?%elem_of_nil|].
  intros Hin Hs. destruct (str_eqb (sid v0) s) eqn:E; [by eexists|].
  apply elem_of_cons in Hin as [[= -> ->]|Hin]; [|by apply IH].
  unfold str_eqb in E. by rewrite bool_decide_eq_true_2 in E.
Qed.

(** The first session of a connection, in the order of the registry, is
    the one the loop of [handle_disconnect] finds. *)
Lemma find_by_sid_first (s : str) (st : state) (k : str) (info : user_info)
    (rest : list (str * user_info)) :
  sessions_of s st = (k, info) :: rest → find_by_sid s (online_users st) = Some k.
Proof.
  unfold sessions_of. induction (online_users st) as [|[k0 v0] d IH]; simpl;
    [done|].
  destruct (str_eqb (sid v0) s); [by intros [= -> _ _] | done].
Qed.


Section Leaving.
Context `{UnicodeDB}.
Implicit Types (st : state) (rq : request) (data : pyval).

(** In a state with unique names, a disconnect spares every session that
    is bound to another connection. *)
Lemma handle_disconnect_spares st rq name info :
  NoDup (dict_keys (online_users st)) →
  dict_get name (online_users st) = Some info →
  sid info ≠ req_sid rq →
  dict_get name (online_users (handle_disconnect st rq).1) = Some info.
Proof.
  intros Hnd Hget Hsid. unfold handle_disconnect.
  destruct (find_by_sid (req_sid rq) (online_users st)) as [k|] eqn:Hfind;
    [|done].
  destruct (truthy (PyStr k)); [|done]. simpl.
  rewrite dict_get_del_ne; [done|]. intros ->.
  apply find_by_sid_elem in Hfind as (info' & Hin & Hs).
  apply (dict_elem_get _ _ _ Hnd) in Hin. congruence.
Qed.

Lemma run_snoc evs ev : run (evs ++ [ev]) = step (run evs) ev.
Proof. unfold run. by rewrite fold_left_app. Qed.

(** X10 ([handle_leave], lines 366-387).  A leave that names no registered
    session, or whose payload is malformed, does nothing at all: the state
    is unchanged and nothing is sent, not even an error. *)
Theorem leave_unknown_ignored st rq data :
  (∀ d name, data = PyDict d →
             dict_get (py "username") d = Some (PyStr name) →
             dict_in name (online_users st) = false) →
  handle_leave st rq data = (st, []).
Proof.
  intros Hno. unfold handle_leave.
  destruct data as [| | | | |d]; try reflexivity.
  destruct (dict_get (py "username") d) as [[| | |name| |]|] eqn:Hd;
    try reflexivity.
  by rewrite (Hno d name eq_refl Hd).
Qed.

Lemma leave_unknown_ignored_witness :
  handle_leave (@run basic_db two_joins) (at_sid "s1" "10:02:00") (named "Carol")
    = (@run basic_db two_joins, []).
Proof.
  apply leave_unknown_ignored.
  intros d name E Hd. injection E as <-. injection Hd as <-. reflexivity.
Defined.

(** X11 ([handle_leave], lines 374-375).  In every reachable state leaving
    is idempotent: after a leave, the same leave again, from any connection,
    changes nothing and sends nothing. *)
Theorem leave_twice (evs : list (request * input)) (rq rq' : request)
    (data : pyval) :
  let st1 := (handle_leave (run evs) rq data).1 in
  handle_leave st1 rq' data = (st1, []).
Proof.
  intros st1. apply leave_unknown_ignored.
  intros d name -> Hd. subst st1. unfold handle_leave. rewrite Hd.
  destruct (dict_in name (online_users (run evs))) eqn:Hin; [|done].
  simpl. apply dict_in_del, run_NoDup.
Qed.

(** X12 ([handle_join] then [handle_leave]).  Joining under a name that was
    free and then leaving under the registered name gives back the registry
    as it was before the join. *)
Theorem join_then_leave st rq rq' (d : list (str * pyval)) (raw : str) :
  dict_get (py "username") d = Some (PyStr raw) →
  strip raw ≠ [] →
  dict_in (clean_username raw) (online_users st) = false →
  online_users
    (handle_leave (handle_join st rq (PyDict d)).1 rq'
       (PyDict [(py "username", PyStr (clean_username raw))])).1
  = online_users st.
Proof.
  intros Hd Hraw Hnew.
  rewrite (handle_join_accepted st rq d raw Hd Hraw). cbv zeta.
  unfold handle_leave.
  change (dict_get (py "username") [(py "username", PyStr (clean_username raw))])
    with (Some (PyStr (clean_username raw))).
  cbn [fst online_users]. rewrite dict_in_set. cbn [fst online_users].
  by apply dict_del_set_fresh.
Qed.

End Leaving.

Lemma join_then_leave_witness :
  online_users
    (handle_leave
       (@handle_join basic_db (@run basic_db two_joins)
          (at_sid "s3" "10:01:00") (named " Carol ")).1
       (at_sid "s3" "10:02:00") (named "Carol")).1
  = online_users (@run basic_db two_joins).
Proof.
  apply (@join_then_leave basic_db (@run basic_db two_joins)
           (at_sid "s3" "10:01:00") (at_sid "s3" "10:02:00")
           [(py "username", PyStr (py " Carol "))] (py " Carol ")).
  - reflexivity.
  - vm_compute. discriminate.
  - reflexivity.
Defined.

Section Disconnecting.
Context `{UnicodeDB}.
Implicit Types (st : state) (rq : request).

(** X13 ([handle_disconnect], lines 108-115).  When no session is bound to
    the closing connection, the disconnect changes nothing and sends
    nothing. *)
Theorem disconnect_unbound st rq :
  (∀ name info, (name, info) ∈ online_users st → sid info ≠ req_sid rq) →
  handle_disconnect st rq = (st, []).
Proof.
  intros Hfree. unfold handle_disconnect.
  destruct (find_by_sid (req_sid rq) (online_users st)) as [k|] eqn:Hfind;
    [|done].
  apply find_by_sid_elem in Hfind as (info & Hin & Hs).
  by destruct (Hfree k info Hin).
Qed.

(** X14 ([handle_disconnect], lines 108-123).  In a reachable state, when
    the first session bound to the closing connection has a non-empty name,
    the disconnect removes that session, keeps the log, and tells every
    other client that the user left, with the names that remain; the name
    is free afterwards. *)
Theorem disconnect_removes_session (evs : list (request * input)) rq
    (name : str) (info : user_info) (rest : list (str * user_info)) :
  let st := run evs in
  sessions_of (req_sid rq) st = (name, info) :: rest →
  name ≠ [] →
  let users := dict_del name (online_users st) in
  let notice :=
    {| em_event := user_left;
       em_data := user_left_data name (dict_keys users);
       em_broadcast := true; em_include_self := false; em_room := None |} in
  handle_disconnect st rq =
    ({| online_users := users; chat_history := chat_history st |},
     [emit notice]) ∧
  dict_in name users = false ∧
  destination (req_sid rq) notice = dest_everyone.
Proof.
  intros st Hfirst Hname users notice. split_and!; [| |done].
  - unfold handle_disconnect.
    rewrite (find_by_sid_first _ _ _ _ _ Hfirst). simpl.
    by rewrite (bool_decide_eq_false_2 (name = [])).
  - apply dict_in_del, run_NoDup.
Qed.

(** X15 ([handle_disconnect], lines 110-116).  In a reachable state a
    disconnect never removes or alters a session that is bound to another
    connection. *)
Theorem disconnect_spares_others (evs : list (request * input)) rq
    (name : str) (info : user_info) :
  let st := run evs in
  dict_get name (online_users st) = Some info →
  sid info ≠ req_sid rq →
  dict_get name (online_users (handle_disconnect st rq).1) = Some info.
Proof. intros st. apply handle_disconnect_spares, run_NoDup. Qed.

(** X16 ([handle_join] then [handle_disconnect]).  After a connection has
    taken over a name from another one, the disconnect of the superseded
    connection leaves the name registered for the new connection. *)
Theorem superseded_disconnect_harmless (evs : list (request * input))
    rq (d : list (str * pyval)) (raw : str) (old : user_info) rq_old :
  dict_get (py "username") d = Some (PyStr raw) →
  strip raw ≠ [] →
  dict_get (clean_username raw) (online_users (run evs)) = Some old →
  sid old ≠ req_sid rq →
  req_sid rq_old = sid old →
  dict_get (clean_username raw)
    (online_users
       (handle_disconnect (handle_join (run evs) rq (PyDict d)).1 rq_old).1)
  = Some {| sid := req_sid rq; joined_at := now_datetime rq |}.
Proof.
  intros Hd Hraw Hold Hsid Hrq.
  change (handle_join (run evs) rq (PyDict d)).1
    with (step (run evs) (rq, in_join (PyDict d))).
  rewrite <- run_snoc. apply handle_disconnect_spares.
  - apply run_NoDup.
  - rewrite run_snoc.
    change (step (run evs) (rq, in_join (PyDict d)))
      with (handle_join (run evs) rq (PyDict d)).1.
    rewrite (handle_join_accepted _ rq d raw Hd Hraw). cbn [fst online_users].
    apply dict_get_set_eq.
  - cbn [sid]. congruence.
Qed.


(** X18 ([handle_disconnect], the [break] of line 113).  In a reachable
    state where two different names are bound to one connection, the
    disconnect of that connection removes at most one of them: a session
    bound to the closed connection remains. *)
Theorem disconnect_leaves_second_name (evs : list (request * input)) rq
    (name1 name2 : str) (info1 info2 : user_info) :
  let st := run evs in
  dict_get name1 (online_users st) = Some info1 →
  dict_get name2 (online_users st) = Some info2 →
  name1 ≠ name2 →
  sid info1 = req_sid rq → sid info2 = req_sid rq →
  joined (handle_disconnect st rq).1 (req_sid rq) = true.
Proof.
  intros st H1 H2 Hne Hs1 Hs2.
  assert (∀ st', (∃ n i, dict_get n (online_users st') = Some i ∧
                         sid i = req_sid rq) →
                 joined st' (req_sid rq) = true) as Hjoined.
  { intros st' (n & i & Hn & Hi). unfold joined.
    apply dict_get_elem in Hn.
    by destruct (find_by_sid_found _ _ _ _ Hn Hi) as [k ->]. }
  apply Hjoined. unfold handle_disconnect.
  destruct (find_by_sid (req_sid rq) (online_users st)) as [k|];
    [|by exists name1, info1].
  destruct (truthy (PyStr k)); [|by exists name1, info1].
  cbn [fst online_users].
  destruct (decide (name1 = k)) as [<-|Hk].
  - exists name2, info2. by rewrite dict_get_del_ne.
  - exists name1, info1. by rewrite dict_get_del_ne.
Qed.

End Disconnecting.

Lemma disconnect_unbound_witness :
  handle_disconnect (@run basic_db two_joins) (at_sid "s3" "10:02:00")
    = (@run basic_db two_joins, []).
Proof.
  apply disconnect_unbound. intros name info Hin.
  apply list_elem_of_In in Hin. vm_compute in Hin.
  destruct Hin as [[= <- <-]|[[= <- <-]|[]]]; vm_compute; discriminate.
Defined.

Lemma disconnect_removes_session_witness :
  let r := handle_disconnect (@run basic_db two_joins) (at_sid "s1" "10:02:00") in
  dict_keys (online_users r.1) = [py "Bob"] ∧
  r.2 = [emit_others user_left (user_left_data (py "Alice") [py "Bob"])].
Proof.
  destruct (@disconnect_removes_session basic_db two_joins
              (at_sid "s1" "10:02:00") (py "Alice")
              {| sid := py "s1"; joined_at := py "2024-01-01 10:00:00" |} []
              eq_refl) as (Hdisc & _ & _).
  - vm_compute. discriminate.
  - intros r. subst r. rewrite Hdisc. split; reflexivity.
Defined.

Lemma disconnect_spares_others_witness :
  dict_get (py "Bob")
    (online_users
       (handle_disconnect (@run basic_db two_joins) (at_sid "s1" "10:02:00")).1)
  = Some {| sid := py "s2"; joined_at := py "2024-01-01 10:00:30" |}.
Proof.
  apply (@disconnect_spares_others basic_db two_joins).
  - reflexivity.
  - vm_compute. discriminate.
Defined.

Lemma superseded_disconnect_harmless_witness :
  dict_get (py "Alice")
    (online_users
       (handle_disconnect
          (@handle_join basic_db (@run basic_db two_joins)
             (at_sid "s3" "10:05:00") (named "Alice")).1
          (at_sid "s1" "10:06:00")).1)
  = Some {| sid := py "s3"; joined_at := py "2024-01-01 10:05:00" |}.
Proof.
  apply (@superseded_disconnect_harmless basic_db two_joins
           (at_sid "s3" "10:05:00") [(py "username", PyStr (py "Alice"))]
           (py "Alice")
           {| sid := py "s1"; joined_at := py "2024-01-01 10:00:00" |}).
  - reflexivity.
  - vm_compute. discriminate.
  - reflexivity.
  - vm_compute. discriminate.
  - reflexivity.
Defined.


Lemma disconnect_leaves_second_name_witness :
  let st := @run basic_db double_join in
  let r := handle_disconnect st (at_sid "s1" "10:02:00") in
  joined r.1 (py "s1") = true.
Proof.
  apply (@disconnect_leaves_second_name basic_db double_join
           (at_sid "s1" "10:02:00") (py "Alice") (py "Bob")
           {| sid := py "s1"; joined_at := py "2024-01-01 10:00:00" |}
           {| sid := py "s1"; joined_at := py "2024-01-01 10:00:30" |}).
  - reflexivity.
  - reflexivity.
  - vm_compute. discriminate.
  - reflexivity.
  - reflexivity.
Defined.

(** ** More about messages *)

Lemma startswith_app (p s : str) : startswith p (p ++ s) = true.
Proof.
  induction p as [|c p IH]; simpl; [done|].
  by rewrite (proj2 (char_eqb_eq c c) eq_refl), IH.
Qed.

Lemma with_scheme_starts (movie_url : str) :
  startswith (py "http://") (with_scheme movie_url)
  || startswith (py "https://") (with_scheme movie_url) = true.
Proof.
  unfold with_scheme.
  destruct (startswith (py "http://") movie_url
            || startswith (py "https://") movie_url) eqn:E; cbn [negb].
  - exact E.
  - by rewrite startswith_app.
Qed.

Lemma limit_length_bound (message : str) :
  length (limit_length message) ≤ 503.
Proof.
  unfold limit_length.
  destruct (Nat.ltb_spec 500 (length message)) as [Hlt|Hle]; [|lia].
  rewrite length_app, length_take.
  change (length (py "...")) with 3. lia.
Qed.

Lemma limit_length_nonempty (message : str) :
  message ≠ [] → limit_length message ≠ [].
Proof.
  unfold limit_length. intros Hne.
  destruct (500 <? length message)%nat; [|done].
  intros [_ E]%app_eq_nil. vm_compute in E. discriminate E.
Qed.

(** The five outcomes of the classification of lines 244-334. *)
Lemma classify_cases (rq : request) (message timestamp : str)
    (hist : list chat_msg) :
  (∃ arg, classify rq message timestamp hist =
            (movie, message, Some (url_data (with_scheme (strip arg))), hist, []))
  ∨ classify rq message timestamp hist =
      (text, py "请提供电影URL，格式：@电影 <url>", None, hist, [])
  ∨ (∃ arg, classify rq message timestamp hist =
              (ai_chat, message, Some (question_data arg),
               (ai_block rq arg timestamp hist).1,
               (ai_block rq arg timestamp hist).2))
  ∨ classify rq message timestamp hist =
      (text, py "请提供要问川小农的问题，格式：@川小农 <问题>", None, hist, [])
  ∨ classify rq message timestamp hist = (text, message, None, hist, []).
Proof.
  unfold classify.
  destruct (startswith (py "@电影") message).
  - destruct (split_once space message) as [|h [|arg t]].
    + right. left. reflexivity.
    + right. left. reflexivity.
    + left. exists arg. reflexivity.
  - destruct (startswith (py "@川小农") message).
    + destruct (split_once space message) as [|h [|arg t]].
      * right. right. right. left. reflexivity.
      * right. right. right. left. reflexivity.
      * right. right. left. exists arg.
        destruct (ai_block rq arg timestamp hist). reflexivity.
    + right. right. right. right. reflexivity.
Qed.

(** X19 ([handle_message], lines 214-216 and 230-236).  A message event is
    dropped without any answer, and without touching the state, when its
    payload is not a dict or lacks ['username'] or ['message'], and also
    when the sender is registered but the body is not a string or is blank
    after trimming. *)
Theorem message_dropped_silently (st : state) (rq : request) (data : pyval) :
  ((∀ d u m, data = PyDict d → dict_get (py "username") d = Some u →
             dict_get (py "message") d = Some m → False) →
   handle_message st rq data = (st, [])) ∧
  (∀ d name body,
     data = PyDict d →
     dict_get (py "username") d = Some (PyStr name) →
     dict_get (py "message") d = Some body →
     dict_in name (online_users st) = true →
     (∀ raw, body = PyStr raw → strip raw = []) →
     handle_message st rq data = (st, [])).
Proof.
  split.
  - intros Hbad. unfold handle_message.
    destruct data as [| | | | |d]; try reflexivity.
    destruct (dict_get (py "username") d) as [u|] eqn:Hu; [|reflexivity].
    destruct (dict_get (py "message") d) as [m|] eqn:Hm; [|reflexivity].
    destruct (Hbad d u m eq_refl Hu Hm).
  - intros d name body -> Hu Hm Hin Hblank.
    unfold handle_message. rewrite Hu, Hm, Hin. cbn [negb].
    unfold accept_message.
    destruct body as [| | |raw| |]; try reflexivity.
    rewrite (Hblank raw eq_refl).
    destruct (negb (truthy (PyStr raw))); reflexivity.
Qed.

Lemma message_dropped_silently_witness :
  handle_message (@run basic_db two_joins) (at_sid "s2" "10:01:00")
    (saying "Bob" "   ") = (@run basic_db two_joins, []) ∧
  handle_message (@run basic_db two_joins) (at_sid "s2" "10:01:00")
    (named "Bob") = (@run basic_db two_joins, []).
Proof.
  split.
  - apply (proj2 (message_dropped_silently _ _ _)
             [(py "username", PyStr (py "Bob")); (py "message", PyStr (py "   "))]
             (py "Bob") (PyStr (py "   ")));
      try reflexivity.
    intros raw E. injection E as <-. reflexivity.
  - apply (proj1 (message_dropped_silently _ _ _)).
    intros d u m E Hu Hm. injection E as <-. vm_compute in Hm. discriminate Hm.
Defined.

(** X20 ([handle_message], lines 234-356, no command).  An accepted message
    that starts with neither command prefix is stored as a [text] event
    with the sender's name, the trimmed body cut to 500 characters plus
    ["..."] when longer, and no attachment, and that event is broadcast to
    the chat room; nothing else is sent. *)
Theorem plain_text_posted
    (st : state) (rq : request) (d : list (str * pyval)) (name raw : str) :
  dict_get (py "username") d = Some (PyStr name) →
  dict_get (py "message") d = Some (PyStr raw) →
  dict_in name (online_users st) = true →
  strip raw ≠ [] →
  let message := limit_length (strip raw) in
  startswith (py "@电影") message = false →
  startswith (py "@川小农") message = false →
  let msg_obj :=
    {| msg_type_of := text; msg_username := Some name;
       msg_message := message; msg_timestamp := now_time rq;
       msg_special_data := Some None |} in
  handle_message st rq (PyDict d) =
    ({| online_users := online_users st;
        chat_history := history_append msg_obj (chat_history st) |},
     [emit_all_room new_message (chat_data msg_obj) chat_room]) ∧
  (length (strip raw) ≤ 500 → message = strip raw) ∧
  (500 < length (strip raw) → message = take 500 (strip raw) ++ py "...").
Proof.
  intros Hu Hm Hin Hraw message Hmovie Hai msg_obj. split_and!.
  - rewrite (handle_message_accepted st rq d name raw Hu Hm Hin Hraw).
    fold message. unfold classify. by rewrite Hmovie, Hai.
  - intros Hle. subst message. unfold limit_length.
    by destruct (Nat.ltb_spec 500 (length (strip raw))) as [?|_]; [lia|].
  - intros Hlt. subst message. unfold limit_length.
    by destruct (Nat.ltb_spec 500 (length (strip raw))) as [_|?]; [|lia].
Qed.

Lemma plain_text_posted_witness :
  let st := @run basic_db two_joins in
  let msg_obj :=
    {| msg_type_of := text; msg_username := Some (py "Alice");
       msg_message := py "hello"; msg_timestamp := py "10:01:00";
       msg_special_data := Some None |} in
  handle_message st (at_sid "s1" "10:01:00") (saying "Alice" "  hello ") =
    ({| online_users := online_users st;
        chat_history := history_append msg_obj (chat_history st) |},
     [emit_all_room new_message (chat_data msg_obj) chat_room]).
Proof.
  intros st msg_obj.
  destruct (plain_text_posted st (at_sid "s1" "10:01:00")
              [(py "username", PyStr (py "Alice"));
               (py "message", PyStr (py "  hello "))]
              (py "Alice") (py "  hello ") eq_refl eq_refl eq_refl)
    as (Hposted & _ & _).
  - vm_compute. discriminate.
  - reflexivity.
  - reflexivity.
  - exact Hposted.
Defined.

(** X21 ([handle_message], lines 262-334).  For an accepted message with the
    assistant prefix and no failure: when the trimmed message contains a
    space, the assistant's reply is stored and broadcast to the room first,
    and the question itself, with the text after the first space as its
    attachment, is stored and broadcast after it; when it contains no space,
    a [text] event with the usage instruction is stored and broadcast
    instead and the assistant does not reply. *)
Theorem assistant_command
    (st : state) (rq : request) (d : list (str * pyval)) (name raw : str) :
  dict_get (py "username") d = Some (PyStr name) →
  dict_get (py "message") d = Some (PyStr raw) →
  dict_in name (online_users st) = true →
  let message := limit_length (strip raw) in
  startswith (py "@川小农") message = true →
  ai_fault rq = no_fault →
  (∀ head arg,
     message = head ++ space :: arg → space ∉ head →
     let ai_response :=
       {| msg_type_of := ai_reply; msg_username := Some (py "川小农");
          msg_message := ai_answer arg (strip arg);
          msg_timestamp := now_time_ai rq; msg_special_data := None |} in
     let msg_obj :=
       {| msg_type_of := ai_chat; msg_username := Some name;
          msg_message := message; msg_timestamp := now_time rq;
          msg_special_data := Some (Some (question_data arg)) |} in
     handle_message st rq (PyDict d) =
       ({| online_users := online_users st;
           chat_history :=
             history_append msg_obj
               (history_append ai_response (chat_history st)) |},
        [emit_all_room new_message (chat_data ai_response) chat_room;
         emit_all_room new_message (chat_data msg_obj) chat_room])) ∧
  (space ∉ message →
     let msg_obj :=
       {| msg_type_of := text; msg_username := Some name;
          msg_message := py "请提供要问川小农的问题，格式：@川小农 <问题>";
          msg_timestamp := now_time rq; msg_special_data := Some None |} in
     handle_message st rq (PyDict d) =
       ({| online_users := online_users st;
           chat_history := history_append msg_obj (chat_history st) |},
        [emit_all_room new_message (chat_data msg_obj) chat_room])).
Proof.
  intros Hu Hm Hin message Hp Hok.
  assert (strip raw ≠ []) as Hraw by by apply (command_not_blank (py "@川小农")).
  rewrite (handle_message_accepted st rq d name raw Hu Hm Hin Hraw).
  fold message. unfold classify.
  rewrite (assistant_prefix_not_movie message Hp), Hp. split.
  - intros head arg Hsplit Hhead. cbv zeta.
    assert (split_once space message = [head; arg]) as ->
      by (rewrite Hsplit; by apply split_once_found).
    unfold ai_block. by rewrite Hok.
  - intros Hnone. by rewrite (split_once_absent space message Hnone).
Qed.

Lemma assistant_command_witness :
  let st := @run basic_db two_joins in
  let r := handle_message st (at_sid "s2" "10:01:00") (saying "Bob" "@川小农 地址") in
  map msg_type_of (chat_history r.1) = [system; system; ai_reply; ai_chat] ∧
  length r.2 = 2.
Proof.
  intros st r.
  destruct (assistant_command st (at_sid "s2" "10:01:00")
              [(py "username", PyStr (py "Bob"));
               (py "message", PyStr (py "@川小农 地址"))]
              (py "Bob") (py "@川小农 地址") eq_refl eq_refl eq_refl eq_refl
              eq_refl) as [Hreply _].
  assert (space ∉ py "@川小农") as Hhead.
  { intros Hin. apply list_elem_of_In in Hin. vm_compute in Hin.
    intuition discriminate. }
  specialize (Hreply (py "@川小农") (py "地址") eq_refl Hhead).
  subst r. unfold saying. rewrite Hreply. split; vm_compute; reflexivity.
Defined.

(** X22 ([handle_message], all paths).  A message event never changes who is
    registered, and everything it sends is a [new_message] or an [error]
    addressed either to the sending connection or to the chat room; it
    never enters or leaves a room. *)
Theorem message_frame (st : state) (rq : request) (data : pyval) :
  online_users (handle_message st rq data).1 = online_users st ∧
  forallb (is_message_action (req_sid rq)) (handle_message st rq data).2 = true.
Proof.
  split; [apply handle_message_users|].
  assert (∀ r, str_eqb r r = true) as Hrefl
    by (intros r; by apply bool_decide_eq_true_2).
  assert (∀ ev m, (ev = new_message ∨ ev = error) →
            is_message_action (req_sid rq) (emit_reply ev m) = true) as Hreply.
  { intros ev m [-> | ->]; simpl; by rewrite Hrefl. }
  assert (∀ m, is_message_action (req_sid rq)
                 (emit_room new_message m (req_sid rq)) = true) as Hroom.
  { intros m. simpl. by rewrite Hrefl. }
  assert (∀ m, is_message_action (req_sid rq)
                 (emit_all_room new_message m chat_room) = true) as Hall.
  { intros m. simpl. by rewrite Hrefl, orb_true_r. }
  assert (∀ arg t h, forallb (is_message_action (req_sid rq))
                       (ai_block rq arg t h).2 = true) as Hblock.
  { intros arg t h. unfold ai_block.
    destruct (ai_fault rq); cbn [snd forallb]; by rewrite ?Hroom, ?Hall. }
  unfold handle_message.
  destruct data as [| | | | |d]; try reflexivity.
  destruct (dict_get (py "username") d) as [u|]; [|reflexivity].
  destruct (dict_get (py "message") d) as [m|]; [|reflexivity].
  destruct u as [| | |name| |];
    try (cbn [snd forallb]; rewrite Hreply by (by right); reflexivity).
  destruct (dict_in name (online_users st)); cbn [negb];
    [|cbn [snd forallb]; rewrite Hreply by (by right); reflexivity].
  unfold accept_message.
  destruct m as [| | |raw| |]; try reflexivity.
  destruct (negb (truthy (PyStr raw))); [reflexivity|].
  destruct (bool_decide (strip raw = [])); [reflexivity|].
  destruct (classify_cases rq (limit_length (strip raw)) (now_time rq)
              (chat_history st))
    as [[arg ->] | [-> | [[arg ->] | [-> | ->]]]];
    cbn [snd]; rewrite ?forallb_app; cbn [forallb];
    by rewrite ?Hblock, ?Hall.
Qed.

(** X23 ([handle_message], lines 238-356).  Every accepted message ends with
    one event that is both the last entry of the log and the last thing
    sent, to the chat room: it carries the sender's name and the time of
    the request, its body is not empty and has at most 503 characters, and
    if it has a URL attached, the URL starts with [http://] or
    [https://]. *)
Theorem accepted_message_stored
    (st : state) (rq : request) (d : list (str * pyval)) (name raw : str) :
  dict_get (py "username") d = Some (PyStr name) →
  dict_get (py "message") d = Some (PyStr raw) →
  dict_in name (online_users st) = true →
  strip raw ≠ [] →
  let r := handle_message st rq (PyDict d) in
  ∃ m,
    last (chat_history r.1) = Some m ∧
    last r.2 = Some (emit_all_room new_message (chat_data m) chat_room) ∧
    msg_username m = Some name ∧
    msg_timestamp m = now_time rq ∧
    msg_message m ≠ [] ∧
    length (msg_message m) ≤ 503 ∧
    (∀ u, msg_special_data m = Some (Some (url_data u)) →
          startswith (py "http://") u || startswith (py "https://") u = true).
Proof.
  intros Hu Hm Hin Hraw r. subst r.
  rewrite (handle_message_accepted st rq d name raw Hu Hm Hin Hraw).
  pose proof (limit_length_bound (strip raw)) as Hlen.
  pose proof (limit_length_nonempty (strip raw) Hraw) as Hne.
  destruct (classify_cases rq (limit_length (strip raw)) (now_time rq)
              (chat_history st))
    as [[arg ->] | [-> | [[arg ->] | [-> | ->]]]];
    cbv beta iota zeta; cbn [fst snd chat_history];
    eexists; (split; [apply history_append_last|]);
    (split; [apply last_snoc|]); cbn [msg_username msg_timestamp msg_message
                                      msg_special_data].
  - split_and!; try done. intros u [= <-]. apply with_scheme_starts.
  - split_and!; try reflexivity; [| |intros u Hu'; discriminate Hu'].
    + intros E. vm_compute in E. discriminate E.
    + vm_compute. lia.
  - split_and!; try done.
  - split_and!; try reflexivity; [| |intros u Hu'; discriminate Hu'].
    + intros E. vm_compute in E. discriminate E.
    + vm_compute. lia.
  - split_and!; try done.
Qed.

Lemma accepted_message_stored_witness :
  let r := handle_message (@run basic_db two_joins) (at_sid "s2" "10:01:00")
             (saying "Bob" "@电影 vid.example/x") in
  ∃ m,
    last (chat_history r.1) = Some m ∧
    last r.2 = Some (emit_all_room new_message (chat_data m) chat_room) ∧
    msg_username m = Some (py "Bob") ∧
    msg_timestamp m = py "10:01:00" ∧
    msg_message m ≠ [] ∧
    length (msg_message m) ≤ 503 ∧
    (∀ u, msg_special_data m = Some (Some (url_data u)) →
          startswith (py "http://") u || startswith (py "https://") u = true).
Proof.
  apply (accepted_message_stored (@run basic_db two_joins)
           (at_sid "s2" "10:01:00")
           [(py "username", PyStr (py "Bob"));
            (py "message", PyStr (py "@电影 vid.example/x"))]
           (py "Bob") (py "@电影 vid.example/x")).
  - reflexivity.
  - reflexivity.
  - reflexivity.
  - vm_compute. discriminate.
Defined.

(** X24 (the assistant's answers, lines 276-305).  Whatever the question,
    the assistant's answer is not empty. *)
Theorem ai_answer_nonempty (arg question : str) : ai_answer arg question ≠ [].
Proof.
  intros E. apply (f_equal length) in E. revert E. unfold ai_answer.
  repeat case_match; rewrite ?length_app; vm_compute; discriminate.
Qed.

(** ** More about the availability check *)

(** X25 ([check_username], lines 75-91).  A JSON request whose body is not a
    dict, or whose ['username'] is present but not a string, is answered
    with the error document and status 500, and reports the name as not
    taken; a request without any username is answered as a request for the
    empty name.  The state is returned unchanged. *)
Theorem check_username_bad_request (st : state) :
  (∀ data,
     (∀ d, data = PyDict d →
           ∃ v, dict_get (py "username") d = Some v ∧ ∀ s, v ≠ PyStr s) →
     check_username st (post_json data) =
       (st, json_error false (py "服务器错误") 500)) ∧
  (∀ d, dict_get (py "username") d = None →
        check_username st (post_json (PyDict d)) =
          check_username st (query (Some []))) ∧
  check_username st (query None) = check_username st (query (Some [])).
Proof.
  split_and!; [| |reflexivity].
  - intros data Hbad. unfold check_username.
    destruct data as [| | | | |d]; try reflexivity.
    destruct (Hbad d eq_refl) as (v & -> & Hv).
    destruct v as [| | |s| |]; try reflexivity.
    by destruct (Hv s).
  - intros d Hd. unfold check_username. by rewrite Hd.
Qed.

Lemma check_username_bad_request_witness :
  check_username (@run basic_db two_joins)
    (post_json (PyDict [(py "username", PyInt 7)])) =
    (@run basic_db two_joins, json_error false (py "服务器错误") 500) ∧
  check_username (@run basic_db two_joins) (post_json (PyDict [])) =
    (@run basic_db two_joins, json_ok false true (py "用户名可用")).
Proof.
  destruct (check_username_bad_request (@run basic_db two_joins))
    as (Hbad & Hnone & _).
  split.
  - apply Hbad. intros d E. injection E as <-.
    exists (PyInt 7). split; [reflexivity | intros s E; discriminate E].
  - rewrite (Hnone [] eq_refl). reflexivity.
Defined.

(** X26 ([handle_join], [check_username], [handle_leave] in sequence).  In a
    reachable state, once a join has registered a name that has no
    whitespace at its ends, the availability check reports that name as
    taken; after a leave under that name it reports it as available. *)
Theorem join_check_leave `{UnicodeDB} (evs : list (request * input))
    (rq rq' : request) (d : list (str * pyval)) (raw : str) :
  dict_get (py "username") d = Some (PyStr raw) →
  strip raw ≠ [] →
  let name := clean_username raw in
  strip name = name →
  let st1 := (handle_join (run evs) rq (PyDict d)).1 in
  let st2 := (handle_leave st1 rq' (PyDict [(py "username", PyStr name)])).1 in
  (check_username st1 (query (Some name))).2 =
    json_ok true false (py "用户名已被使用") ∧
  (check_username st2 (query (Some name))).2 =
    json_ok false true (py "用户名可用").
Proof.
  intros Hd Hraw name Hname st1 st2.
  assert (st1 = run (evs ++ [(rq, in_join (PyDict d))])) as Hst1
    by (by rewrite run_snoc).
  assert (dict_in name (online_users st1) = true) as Hin.
  { subst st1. rewrite (handle_join_accepted _ rq d raw Hd Hraw).
    cbn [fst online_users]. apply dict_in_set. }
  assert (dict_in name (online_users st2) = false) as Hout.
  { subst st2. unfold handle_leave.
    change (dict_get (py "username") [(py "username", PyStr name)])
      with (Some (PyStr name)).
    cbv beta iota. rewrite Hin. cbn [fst online_users].
    apply dict_in_del. rewrite Hst1. apply run_NoDup. }
  unfold check_username. cbn [snd]. rewrite Hname, Hin, Hout. by split.
Qed.

Lemma join_check_leave_witness :
  let st1 := (@handle_join basic_db (@run basic_db two_joins)
                (at_sid "s3" "10:01:00") (named "Carol!")).1 in
  let st2 := (handle_leave st1 (at_sid "s3" "10:02:00") (named "Carol")).1 in
  (check_username st1 (query (Some (py "Carol")))).2 =
    json_ok true false (py "用户名已被使用") ∧
  (check_username st2 (query (Some (py "Carol")))).2 =
    json_ok false true (py "用户名可用").
Proof.
  apply (@join_check_leave basic_db two_joins (at_sid "s3" "10:01:00")
           (at_sid "s3" "10:02:00") [(py "username", PyStr (py "Carol!"))]
           (py "Carol!")).
  - reflexivity.
  - vm_compute. discriminate.
  - reflexivity.
Defined.

(** X27 (which handlers write what).  Only joins and messages write the log;
    only joins, leaves and disconnects write the registry; and only a join
    can add a name to it. *)
Theorem writers `{UnicodeDB} (st : state) (rq : request) (i : input) :
  match i with
  | in_join _ | in_send_message _ => True
  | _ => chat_history (step st (rq, i)) = chat_history st
  end ∧
  match i with
  | in_join _ | in_leave _ | in_disconnect => True
  | _ => online_users (step st (rq, i)) = online_users st
  end ∧
  match i with
  | in_join _ => True
  | _ => ∀ name, name ∈ dict_keys (online_users (step st (rq, i))) →
                 name ∈ dict_keys (online_users st)
  end.
Proof.
  assert (∀ q, check_username st q = (st, (check_username st q).2)) as Hcheck.
  { intros q. unfold check_username. by repeat case_match. }
  destruct i as [| |data|data|data|q]; cbn [step]; split_and!; try done.
  - unfold handle_disconnect. by repeat case_match.
  - unfold handle_disconnect. repeat case_match; try done.
    intros name. cbn [fst online_users]. apply dict_keys_del_subset.
  - cbn [step]. apply handle_message_users.
  - intros name. by rewrite handle_message_users.
  - unfold handle_leave. by repeat case_match.
  - unfold handle_leave. repeat case_match; try done.
    intros name. cbn [fst online_users]. apply dict_keys_del_subset.
  - by rewrite Hcheck.
  - by rewrite Hcheck.
  - by rewrite Hcheck.
Qed.

(** ** The shape of a normalized name *)

Lemma filter_sublist {A} (f : A → bool) (l : list A) :
  List.filter f l `sublist_of` l.
Proof.
  induction l as [|x l IH]; simpl; [done|].
  destruct (f x); [by apply sublist_skip | by apply sublist_cons].
Qed.

(** X3 (the cleaning of lines 63-64 and 148-149).  Cleaning only deletes
    characters: the cleaned name is a subsequence of the raw name, has at
    most 30 characters, and each of its characters is alphanumeric or one
    of space, underscore, U+4E00, hyphen-minus and U+9FA5. *)
Theorem clean_username_shape `{UnicodeDB} (raw : str) :
  clean_username raw `sublist_of` raw ∧
  length (clean_username raw) ≤ 30 ∧
  ∀ c, c ∈ clean_username raw →
       isalnum c = true ∨ c ∈ [32; 95; 19968; 45; 40869]%N.
Proof.
  split_and!.
  - unfold clean_username.
    etrans; [apply filter_sublist|]. etrans; [apply sublist_take|].
    destruct (strip_split raw) as (l & r & Hraw & _).
    rewrite Hraw at 2. apply sublist_inserts_l, sublist_inserts_r. done.
  - apply clean_username_short.
  - intros c Hc.
    pose proof (clean_username_kept raw) as Hkept.
    rewrite Forall_forall in Hkept. specialize (Hkept c Hc).
    unfold keep_char in Hkept.
    apply orb_true_iff in Hkept as [Hk|Hk]; [by left|]. right.
    unfold char_in in Hk. apply existsb_exists in Hk as (x & Hx & Hcx).
    apply char_eqb_eq in Hcx. subst x. by apply list_elem_of_In.
Qed.
